(** * AboutNbody: the velocity-Verlet N-body integrator of [nbody-E.py]

    A shallow embedding of the Python program: floats are IEEE binary64
    (Rocq's primitive floats, whose [+ - * / sqrt] round as CPython's do),
    the lists a particle tuple points to live in an explicit store, and every
    operation runs in a state-and-exception monad in which the store survives
    a raised exception, as Python's heap does. *)

From Stdlib Require Import ZArith Floats Lia String Ascii.
From stdpp Require Import list.
Set Warnings "-inexact-float".

(** ** Python exceptions and results *)

Inductive exn : Set :=
| ZeroDivisionError
| OverflowError
| ValueError
| IndexError
| TypeError
| OSError.

Inductive result (A : Type) : Type :=
| Ok (x : A)
| Raise (e : exn).
Arguments Ok {A} x.
Arguments Raise {A} e.

(** A computation over a state [S]: the state it leaves, and either a value or
    the exception that escaped. *)
Definition M (S A : Type) : Type := S -> S * result A.

Definition ret {S A} (x : A) : M S A := fun s => (s, Ok x).

Definition raise {S A} (e : exn) : M S A := fun s => (s, Raise e).

Definition bind {S A B} (m : M S A) (k : A -> M S B) : M S B :=
  fun s =>
    match m s with
    | (s', Ok x) => k x s'
    | (s', Raise e) => (s', Raise e)
    end.

Definition lift {S A} (r : result A) : M S A := fun s => (s, r).

Declare Scope py_scope.
Delimit Scope py_scope with py.
Notation "'let*' x ':=' m 'in' k" := (bind m (fun x => k))
  (at level 10, x name, m at level 100, k at level 200) : py_scope.
Notation "m >> k" := (bind m (fun _ => k))
  (at level 100, k at level 200, right associativity) : py_scope.
Open Scope py_scope.

(** [for x in xs: body x] over a list that the body does not resize. *)
Fixpoint foreach {S X} (xs : list X) (body : X -> M S unit) : M S unit :=
  match xs with
  | [] => ret tt
  | x :: rest => body x >> foreach rest body
  end.

(** A [for] loop that threads a local variable [acc]. *)
Fixpoint foldM {S X A} (body : A -> X -> M S A) (xs : list X) (acc : A) : M S A :=
  match xs with
  | [] => ret acc
  | x :: rest => let* acc' := body acc x in foldM body rest acc'
  end.

(** [enumerate(xs)], [range(a, b)] on machine-independent integers, and
    [itertools.combinations(xs, 2)]. *)
Definition enumerate {X} (xs : list X) : list (nat * X) :=
  zip (seq 0 (length xs)) xs.

Definition range (a b : nat) : list nat := seq a (b - a).

Fixpoint combinations2 {X} (xs : list X) : list (X * X) :=
  match xs with
  | [] => []
  | x :: rest => map (pair x) rest ++ combinations2 rest
  end.

Definition py_range (a b : Z) : list Z :=
  map (fun k => (a + Z.of_nat k)%Z) (seq 0 (Z.to_nat (b - a))).

(** ** Float operations that can raise *)

Definition py_div (x y : float) : result float :=
  if (y =? 0)%float then Raise ZeroDivisionError else Ok (x / y)%float.

(** [math.sqrt]: a negative argument is a domain error. *)
Definition py_sqrt (x : float) : result float :=
  if (x <? 0)%float then Raise ValueError else Ok (sqrt x).

(** [int(x)]: truncation towards zero. *)
Definition py_int (x : float) : result Z :=
  match Prim2SF x with
  | S754_nan => Raise ValueError
  | S754_infinity _ => Raise OverflowError
  | S754_zero _ => Ok 0%Z
  | S754_finite s m e => Ok (cond_Zopp s (Z.shiftl (Zpos m) e))
  end.

(** An [int] converted for a float product: round to nearest even, and an
    [OverflowError] beyond the largest double. *)
Definition float_of_int (z : Z) : result float :=
  let f := SF2Prim (binary_normalize prec emax z 0 false) in
  if is_infinity f then Raise OverflowError else Ok f.

(** ** The store *)

(** A three-element Python list of floats. *)
Record vec3 : Set := V3 { c0 : float; c1 : float; c2 : float }.

Definition zero3 : vec3 := V3 0 0 0.

Inductive axis : Set := X0 | X1 | X2.

Definition item (k : axis) (u : vec3) : float :=
  match k with X0 => c0 u | X1 => c1 u | X2 => c2 u end.

Definition set_item (k : axis) (x : float) (u : vec3) : vec3 :=
  match k with
  | X0 => V3 x (c1 u) (c2 u)
  | X1 => V3 (c0 u) x (c2 u)
  | X2 => V3 (c0 u) (c1 u) x
  end.

Abbreviation loc := nat (only parsing).

(** The list objects allocated so far; a reference is an index. *)
Abbreviation heap := (list vec3) (only parsing).

Definition lk (h : heap) (l : loc) : vec3 := default zero3 (h !! l).

(** [[x, y, z]]: a fresh list object. *)
Definition alloc (u : vec3) : M heap loc := fun h => (h ++ [u], Ok (length h)).

(** Unpacking a list, [(x, y, z) = l]. *)
Definition load (l : loc) : M heap vec3 := fun h => (h, Ok (lk h l)).

(** [l[0], l[1], l[2] = x, y, z] with the right-hand side already evaluated. *)
Definition store (l : loc) (u : vec3) : M heap unit := fun h => (<[l := u]> h, Ok tt).

Definition getitem (l : loc) (k : axis) : M heap float := fun h => (h, Ok (item k (lk h l))).

Definition setitem (l : loc) (k : axis) (x : float) : M heap unit :=
  fun h => (<[l := set_item k x (lk h l)]> h, Ok tt).

(** [l[k] += x] and [l[k] -= x]. *)
Definition iadd (l : loc) (k : axis) (x : float) : M heap unit :=
  let* y := getitem l k in setitem l k (y + x)%float.

Definition isub (l : loc) (k : axis) (x : float) : M heap unit :=
  let* y := getitem l k in setitem l k (y - x)%float.

(** ** Particles and the cluster *)

(** The tuple [(mass, r, v, a, oa)]: a float and four list references. *)
Record particle : Set := Tuple {
  p_mass : float;
  p_r : loc;
  p_v : loc;
  p_a : loc;
  p_oa : loc
}.

Definition Particle (mass px py pz vx vy vz : float) : M heap particle :=
  let* r := alloc (V3 px py pz) in
  let* v := alloc (V3 vx vy vz) in
  let* a := alloc (V3 0 0 0) in
  let* oa := alloc (V3 0 0 0) in
  ret (Tuple mass r v a oa).

Abbreviation cluster := (list particle) (only parsing).

Section Kernel.

(** [x ** 1.5] on floats.  CPython hands a finite positive base to the C
    library's [pow], whose rounding the language does not fix, and raises
    [OverflowError] when the result overflows; the kernel only applies it to a
    sum of squares. *)
Variable pow15 : float -> result float.

Definition get_energy (self : cluster) : M heap float :=
  let* ke := foldM (fun ke p =>
      let* v := load (p_v p) in
      let '(V3 vx vy vz) := v in
      ret (ke + 0.5 * p_mass p * (vx * vx + vy * vy + vz * vz))%float) self 0%float in
  let* pe := foldM (fun pe pq =>
      let '(p, q) := pq in
      let* r1 := load (p_r p) in
      let* r2 := load (p_r q) in
      let dx := (c0 r1 - c0 r2)%float in
      let dy := (c1 r1 - c1 r2)%float in
      let dz := (c2 r1 - c2 r2)%float in
      let* d := lift (py_sqrt (dx * dx + dy * dy + dz * dz)%float) in
      let* t := lift (py_div (p_mass p * p_mass q)%float d) in
      ret (pe - t)%float) (combinations2 self) 0%float in
  ret (ke + pe)%float.

(** The body of the inner loop of [accelerate]: [p1] and its unpacked position
    come from the outer loop, [j] is the inner index. *)
Definition accelerate_pair (self : cluster) (p1 : particle) (r1 : vec3) (j : nat) : M heap unit :=
  match self !! j with
  | None => raise IndexError
  | Some p2 =>
      let* r2 := load (p_r p2) in
      let dx := (c0 r1 - c0 r2)%float in
      let dy := (c1 r1 - c1 r2)%float in
      let dz := (c2 r1 - c2 r2)%float in
      let* distance_cube := lift (pow15 (dx * dx + dy * dy + dz * dz)%float) in
      let* tmp := lift (py_div (p_mass p2) distance_cube) in
      isub (p_a p1) X0 (tmp * dx)%float >>
      isub (p_a p1) X1 (tmp * dy)%float >>
      isub (p_a p1) X2 (tmp * dz)%float >>
      let* tmp := lift (py_div (p_mass p1) distance_cube) in
      iadd (p_a p2) X0 (tmp * dx)%float >>
      iadd (p_a p2) X1 (tmp * dy)%float >>
      iadd (p_a p2) X2 (tmp * dz)%float
  end.

Definition accelerate (self : cluster) : M heap unit :=
  foreach self (fun p =>
    let* a := load (p_a p) in
    store (p_oa p) a >>
    store (p_a p) (V3 0 0 0)) >>
  let nb_particules := length self in
  foreach (enumerate self) (fun ip =>
    let '(i, p1) := ip in
    let* r1 := load (p_r p1) in
    foreach (range (i + 1) nb_particules) (accelerate_pair self p1 r1)).

Definition step (self : cluster) (dt : float) : M heap unit :=
  let half_dt_square := (0.5 * dt * dt)%float in
  foreach self (fun p =>
    let* v := load (p_v p) in
    let* a := load (p_a p) in
    iadd (p_r p) X0 (dt * c0 v + half_dt_square * c0 a)%float >>
    iadd (p_r p) X1 (dt * c1 v + half_dt_square * c1 a)%float >>
    iadd (p_r p) X2 (dt * c2 v + half_dt_square * c2 a)%float) >>
  accelerate self >>
  let half_dt := (0.5 * dt)%float in
  foreach self (fun p =>
    let* a := load (p_a p) in
    let* oa := load (p_oa p) in
    iadd (p_v p) X0 (half_dt * (c0 a + c0 oa))%float >>
    iadd (p_v p) X1 (half_dt * (c1 a + c1 oa))%float >>
    iadd (p_v p) X2 (half_dt * (c2 a + c2 oa))%float).

End Kernel.

(** ** The particle system as values

    What a reader of the cluster sees: for each particle its mass and the
    current contents of its four lists. *)

Record body : Set := Body {
  mass : float;
  position : vec3;
  velocity : vec3;
  acceleration : vec3;
  previous_acceleration : vec3
}.

#[export] Instance body_inhabited : Inhabited body :=
  populate (Body 0 zero3 zero3 zero3 zero3).

Definition view (h : heap) (p : particle) : body :=
  Body (p_mass p) (lk h (p_r p)) (lk h (p_v p)) (lk h (p_a p)) (lk h (p_oa p)).

Definition bodies (self : cluster) (h : heap) : list body := map (view h) self.

(** The four lists of a particle, and the clusters in which no list object is
    shared: every tuple built by [Particle] owns four fresh lists. *)
Definition cells (p : particle) : list loc := [p_r p; p_v p; p_a p; p_oa p].

Definition all_cells (self : cluster) : list loc := concat (map cells self).

Definition separate (self : cluster) (h : heap) : Prop :=
  NoDup (all_cells self) /\ Forall (fun l => l < length h) (all_cells self).

Definition vsub (u w : vec3) : vec3 :=
  V3 (c0 u - c0 w) (c1 u - c1 w) (c2 u - c2 w).

Definition vadd (u w : vec3) : vec3 :=
  V3 (c0 u + c0 w) (c1 u + c1 w) (c2 u + c2 w).

Definition scale (k : float) (u : vec3) : vec3 :=
  V3 (k * c0 u) (k * c1 u) (k * c2 u).

Definition dot (u w : vec3) : float :=
  (c0 u * c0 w + c1 u * c1 w + c2 u * c2 w)%float.

Definition with_position (u : vec3) (b : body) : body :=
  Body (mass b) u (velocity b) (acceleration b) (previous_acceleration b).

Definition with_velocity (u : vec3) (b : body) : body :=
  Body (mass b) (position b) u (acceleration b) (previous_acceleration b).

Definition with_acceleration (u : vec3) (b : body) : body :=
  Body (mass b) (position b) (velocity b) u (previous_acceleration b).

Definition with_previous (u : vec3) (b : body) : body :=
  Body (mass b) (position b) (velocity b) (acceleration b) u.

(** Every unordered pair of indices below [n], [(i, j)] with [i < j], in the
    order the kernel visits them. *)
Definition index_pairs (n : nat) : list (nat * nat) :=
  flat_map (fun i => map (pair i) (seq (S i) (n - S i))) (seq 0 n).

(** The acceleration handoff that precedes the pairwise pass. *)
Definition handoff (b : body) : body :=
  Body (mass b) (position b) (velocity b) zero3 (acceleration b).

Section Force.

Variable pow15 : float -> result float.

(** One pair of the pairwise pass:
    [delta = position[i] - position[j]], [distance_cubed = (delta.delta) ^ 1.5],
    [acceleration[i] -= (mass[j] / distance_cubed) * delta] and
    [acceleration[j] += (mass[i] / distance_cubed) * delta]. *)
Definition interact (ij : nat * nat) : M (list body) unit := fun bs =>
  match bs !! ij.1, bs !! ij.2 with
  | Some bi, Some bj =>
      let delta := vsub (position bi) (position bj) in
      match pow15 (dot delta delta) with
      | Raise e => (bs, Raise e)
      | Ok distance_cubed =>
          if (distance_cubed =? 0)%float then (bs, Raise ZeroDivisionError)
          else
            let di := scale (mass bj / distance_cubed) delta in
            let dj := scale (mass bi / distance_cubed) delta in
            (alter (fun b => with_acceleration (vadd (acceleration b) dj) b) ij.2
               (alter (fun b => with_acceleration (vsub (acceleration b) di) b) ij.1 bs),
             Ok tt)
      end
  | _, _ => (bs, Raise IndexError)
  end.

(** [recompute_accelerations()]: the handoff, then the contributions of all
    pairs accumulated from the zero vector. *)
Definition recompute_accelerations : M (list body) unit := fun bs =>
  foreach (index_pairs (length bs)) interact (map handoff bs).

(** The two per-particle updates of velocity-Verlet. *)
Definition position_update (dt : float) (b : body) : body :=
  with_position
    (vadd (position b) (vadd (scale dt (velocity b)) (scale (0.5 * dt * dt) (acceleration b)))) b.

Definition velocity_update (dt : float) (b : body) : body :=
  with_velocity
    (vadd (velocity b) (scale (0.5 * dt) (vadd (acceleration b) (previous_acceleration b)))) b.

(** [step(dt)] as its three phases. *)
Definition verlet_step (dt : float) : M (list body) unit := fun bs =>
  match recompute_accelerations (map (position_update dt) bs) with
  | (bs', Ok _) => (map (velocity_update dt) bs', Ok tt)
  | (bs', Raise e) => (bs', Raise e)
  end.

End Force.

(** The energy diagnostic: kinetic plus potential energy, each accumulated
    from zero in index order. *)
Definition kinetic_energy (bs : list body) : float :=
  fold_left (fun ke b => ke + 0.5 * mass b * dot (velocity b) (velocity b))%float bs 0%float.

Definition distance (bi bj : body) : float :=
  let delta := vsub (position bi) (position bj) in sqrt (dot delta delta).

Definition potential_energy (bs : list body) : float :=
  fold_left (fun pe ij => pe - (mass (bs !!! ij.1) * mass (bs !!! ij.2)) / distance (bs !!! ij.1) (bs !!! ij.2))%float
    (index_pairs (length bs)) 0%float.

Definition total_energy (bs : list body) : float :=
  (kinetic_energy bs + potential_energy bs)%float.

(** Two particles coincide when their positions compare equal, component by
    component, with Python's [==]. *)
Definition coincide (bi bj : body) : bool :=
  (c0 (position bi) =? c0 (position bj))%float
  && (c1 (position bi) =? c1 (position bj))%float
  && (c2 (position bi) =? c2 (position bj))%float.

Definition is_finite (x : float) : bool := negb (is_nan x) && negb (is_infinity x).

Definition finite3 (u : vec3) : bool :=
  is_finite (c0 u) && is_finite (c1 u) && is_finite (c2 u).

(** ** The driver *)

#[export] Instance exn_eq_dec : EqDecision exn.
Proof. solve_decision. Defined.

(** [try: m  except e: handler]. *)
Definition catch {S A} (e : exn) (m handler : M S A) : M S A := fun s =>
  match m s with
  | (s', Raise e') => if decide (e' = e) then handler s' else (s', Raise e')
  | sr => sr
  end.

(** What the program writes to standard output, before formatting. *)
Inductive line : Set :=
| Progress (t E dE : float)
| FinalDrift (d : float)
| Elapsed.

(** The process state: the store, the output so far, and a ghost counter of
    the calls to [Cluster.step]. *)
Record world : Type := World {
  w_heap : heap;
  w_out : list line;
  w_calls : nat
}.

Definition on_heap {A} (m : M heap A) : M world A := fun w =>
  match m (w_heap w) with
  | (h, r) => (World h (w_out w) (w_calls w), r)
  end.

Definition print (l : line) : M world unit := fun w =>
  (World (w_heap w) (w_out w ++ [l]) (w_calls w), Ok tt).

Definition tick : M world unit := fun w =>
  (World (w_heap w) (w_out w) (S (w_calls w)), Ok tt).

(** [str.split()].  A character of a [string] is a code point below 256, and
    [is_space] is [str.isspace] there: tab, line feed, vertical tab, form feed
    and carriage return (9-13), the four separators 28-31, the space (32), the
    next-line control U+0085 and the no-break space U+00A0. *)
Definition is_space (c : ascii) : bool :=
  let n := nat_of_ascii c in
  (Nat.leb 9 n && Nat.leb n 13) || (Nat.leb 28 n && Nat.leb n 32)
  || Nat.eqb n 133 || Nat.eqb n 160.

Fixpoint split_from (cur : string) (s : string) : list string :=
  match s with
  | EmptyString => match cur with EmptyString => [] | _ => [cur] end
  | String c rest =>
      if is_space c then
        match cur with
        | EmptyString => split_from EmptyString rest
        | _ => cur :: split_from EmptyString rest
        end
      else split_from (cur ++ String c EmptyString) rest
  end.

Definition py_split (s : string) : list string := split_from EmptyString s.

(** [sys.argv[k]]. *)
Definition argv_at (argv : list string) (k : nat) : result string :=
  match argv !! k with
  | Some s => Ok s
  | None => Raise IndexError
  end.

(** [Particle( *xs )]: any other number of arguments than seven is a
    [TypeError]. *)
Definition call_Particle (xs : list float) : M heap particle :=
  match xs with
  | [mass; px; py; pz; vx; vy; vz] => Particle mass px py pz vx vy vz
  | _ => raise TypeError
  end.

(** The two energy variables of the main loop. *)
Record energies : Set := Energies { energy : float; old_energy : float }.

Section Driver.

Variable pow15 : float -> result float.

(** [float(s)] on a string: the parsed value, or [None] for a [ValueError]. *)
Variable py_float : string -> option float.

Definition float_of_str (s : string) : result float :=
  match py_float s with
  | Some x => Ok x
  | None => Raise ValueError
  end.

(** [[float(x) for x in tokens]], left to right. *)
Fixpoint floats_of (tokens : list string) : result (list float) :=
  match tokens with
  | [] => Ok []
  | t :: rest =>
      match float_of_str t with
      | Raise e => Raise e
      | Ok x =>
          match floats_of rest with
          | Raise e => Raise e
          | Ok xs => Ok (x :: xs)
          end
      end
  end.

(** The body of the loop over the lines of the input file. *)
Definition load_line (c : cluster) (ln : string) : M heap cluster :=
  catch TypeError
    (let* xs := lift (floats_of (tail (py_split ln))) in
     let* p := call_Particle xs in
     ret (c ++ [p]))
    (ret c).

Definition load_lines (lines : list string) : M heap cluster :=
  foldM load_line lines [].

(** The end time: [sys.argv[2]], or 10.0 when there is no such argument. *)
Definition time_end_of (argv : list string) : result float :=
  match argv_at argv 2 with
  | Ok s => float_of_str s
  | Raise IndexError => Ok 10%float
  | Raise e => Raise e
  end.

Definition loop_body (c : cluster) (time_step : float) (es : energies) (step_i : Z)
  : M world energies :=
  tick >>
  on_heap (step pow15 c time_step) >>
  if (step_i mod 100 =? 0)%Z then
    let* e := on_heap (get_energy c) in
    let* k := lift (float_of_int step_i) in
    let* d := lift (py_div (e - old_energy es)%float (old_energy es)) in
    print (Progress (time_step * k)%float e d) >>
    ret (Energies e e)
  else ret es.

Definition simulate (c : cluster) (time_end : float) : M world unit :=
  let time_step := 0.001%float in
  let energy0 := (-0.25)%float in
  on_heap (accelerate pow15 c) >>
  let* q := lift (py_div time_end time_step) in
  let* n := lift (py_int (q + 1)%float) in
  let* es := foldM (loop_body c time_step) (py_range 1 n) (Energies energy0 energy0) in
  let* d := lift (py_div (energy es - energy0)%float energy0) in
  print (FinalDrift d) >>
  print Elapsed.

(** The program: [argv] is [sys.argv] and [fs] the file system, which gives
    the lines of a readable file. *)
Definition main (argv : list string) (fs : string -> option (list string)) : M world unit :=
  let* time_end := lift (time_end_of argv) in
  let* path := lift (argv_at argv 1) in
  let* lines := lift (match fs path with Some ls => Ok ls | None => Raise OSError end) in
  let* c := on_heap (load_lines lines) in
  simulate c time_end.

End Driver.

Definition start : world := World [] [] 0.

(** The samples of the total energy that a run printed, in order. *)
Definition samples (out : list line) : list float :=
  omap (fun l => match l with Progress _ E _ => Some E | _ => None end) out.

Definition drifts (out : list line) : list float :=
  omap (fun l => match l with FinalDrift d => Some d | _ => None end) out.

Definition final_drift (out : list line) : option float := last (drifts out).

(** ** Relating the store to the values *)

(** The four list fields of a particle, to state once what holds of each. *)
Inductive field : Set := Fr | Fv | Fa | Foa.

#[export] Instance field_eq_dec : EqDecision field.
Proof. solve_decision. Defined.

Definition cell (f : field) (p : particle) : loc :=
  match f with Fr => p_r p | Fv => p_v p | Fa => p_a p | Foa => p_oa p end.

Definition put (f : field) (u : vec3) (b : body) : body :=
  match f with
  | Fr => with_position u b
  | Fv => with_velocity u b
  | Fa => with_acceleration u b
  | Foa => with_previous u b
  end.

(** A run on the store and a run on the values agree: same values left
    behind, same outcome, and storage still separate. *)
Definition agree (self : cluster) (hr : list vec3 * result unit)
    (br : list body * result unit) : Prop :=
  separate self hr.1 /\ bodies self hr.1 = br.1 /\ hr.2 = br.2.

(** A method [m] on a cluster with separate storage acts on the values as [g]
    does. *)
Definition refines (self : cluster) (m : M heap unit) (g : M (list body) unit) : Prop :=
  forall h, separate self h -> agree self (m h) (g (bodies self h)).

(** Everything of a body but its acceleration. *)
Definition frame (b : body) : float * vec3 * vec3 * vec3 :=
  (mass b, position b, velocity b, previous_acceleration b).

(** One term of the potential energy, as the loop of [get_energy] computes
    it from the running sum [pe]. *)
Definition potential_step (pe : float) (bb : body * body) : result float :=
  let delta := vsub (position bb.1) (position bb.2) in
  match py_sqrt (dot delta delta) with
  | Raise e => Raise e
  | Ok d =>
      match py_div (mass bb.1 * mass bb.2) d with
      | Raise e => Raise e
      | Ok t => Ok (pe - t)%float
      end
  end.

Fixpoint potential_from (pe : float) (pairs : list (body * body)) : result float :=
  match pairs with
  | [] => Ok pe
  | bb :: rest =>
      match potential_step pe bb with
      | Raise e => Raise e
      | Ok pe' => potential_from pe' rest
      end
  end.

Definition body_pairs (bs : list body) : list (body * body) :=
  map (fun ij : nat * nat => (bs !!! ij.1, bs !!! ij.2)) (index_pairs (length bs)).

(** The sum of squares the kernel raises to the power 1.5. *)
Definition distance_squared (bi bj : body) : float :=
  let delta := vsub (position bi) (position bj) in dot delta delta.

#[export] Instance separate_dec (self : cluster) (h : heap) : Decision (separate self h).
Proof. unfold separate. apply _. Defined.

(** Floats that are not negative: what a sum of squares can be. *)
Definition not_negative (x : spec_float) : Prop :=
  match x with
  | S754_zero s | S754_infinity s | S754_finite s _ _ => s = false
  | S754_nan => True
  end.

(** Two bodies that the pairwise pass cannot tell apart. *)
Definition same_dynamics (b b' : body) : Prop :=
  mass b = mass b' /\ position b = position b' /\ acceleration b = acceleration b'.

(** A pair of coinciding particles whose [distance_cube] is zero, in a run of
    the kernel that nevertheless returns. *)
Definition silent_singularity (pow15 : float -> result float)
    (self : cluster) (h : heap) : Prop :=
  exists i j bi bj d,
    i < j /\
    bodies self h !! i = Some bi /\ bodies self h !! j = Some bj /\
    coincide bi bj = true /\
    pow15 (distance_squared bi bj) = Ok d /\ (d =? 0)%float = true /\
    (accelerate pow15 self h).2 = Ok tt.

(** The final drift as the specification words it: relative to the first
    energy sample of the run. *)
Definition drift_from_first_sample (out : list line) : option float :=
  match head (samples out), last (samples out) with
  | Some e_first, Some e_last => Some ((e_last - e_first) / e_first)%float
  | _, _ => None
  end.

(** The number of steps as the specification words it: [end_time / step_size]
    truncated to an integer, plus one. *)
Definition step_count_as_specified (time_end : float) : result Z :=
  match py_int (time_end / 0.001)%float with
  | Ok n => Ok (n + 1)%Z
  | Raise e => Raise e
  end.

(** The lines the specification calls well-formed: seven trailing fields,
    each of them a number. *)
Definition seven_numeric_fields (py_float : string -> option float) (ln : string) : Prop :=
  length (tail (py_split ln)) = 7 /\
  Forall (fun t => is_Some (py_float t)) (tail (py_split ln)).

(** ** Sample data *)

(** A stand-in for [x ** 1.5] with CPython's special cases (a NaN base gives
    NaN, a zero base gives zero, an overflowing result raises); its generic
    case rounds twice, so it only serves to run the definitions on examples. *)
Definition pow15_sample (x : float) : result float :=
  if is_nan x then Ok nan
  else if (x =? 0)%float then Ok 0%float
  else if (x <? 0)%float then Raise ValueError
  else
    let y := (x * sqrt x)%float in
    if is_infinity y && negb (is_infinity x) then Raise OverflowError else Ok y.

(** [Particle(2, 0, 0, 0, 1, 0, 0)] alone: a free particle of kinetic energy 1. *)
Definition one_body : cluster := [Tuple 2 0 1 2 3].

Definition one_body_heap : heap := [V3 0 0 0; V3 1 0 0; V3 0 0 0; V3 0 0 0].

(** Two unit masses one unit apart. *)
Definition two_bodies : cluster := [Tuple 1 0 1 2 3; Tuple 1 4 5 6 7].

Definition two_bodies_heap : heap :=
  [V3 0 0 0; V3 0 0.5 0; V3 0 0 0; V3 0 0 0;
   V3 1 0 0; V3 0 (-0.5) 0; V3 0 0 0; V3 0 0 0].

(** Two unit masses at the origin. *)
Definition coincident_heap : heap :=
  [V3 0 0 0; V3 0 0 0; V3 0 0 0; V3 0 0 0;
   V3 0 0 0; V3 0 0 0; V3 0 0 0; V3 0 0 0].

(** Two unit masses whose positions differ by [1e-200] along the first axis:
    the square of that difference underflows to zero. *)
Definition close_heap : heap :=
  [V3 0 0 0; V3 0 0 0; V3 0 0 0; V3 0 0 0;
   V3 1e-200 0 0; V3 0 0 0; V3 0 0 0; V3 0 0 0].

(** A stand-in for [float(s)] that reads unsigned decimal integers and rejects
    every other string; on the strings it accepts, and on strings that are no
    number at all, it agrees with Python. *)
Definition digit_value (c : ascii) : option Z :=
  let n := nat_of_ascii c in
  if Nat.leb 48 n && Nat.leb n 57 then Some (Z.of_nat (n - 48)) else None.

Fixpoint digits_value (acc : Z) (s : string) : option Z :=
  match s with
  | EmptyString => Some acc
  | String c rest =>
      match digit_value c with
      | Some d => digits_value (10 * acc + d) rest
      | None => None
      end
  end.

Definition py_float_sample (s : string) : option float :=
  match s with
  | EmptyString => None
  | _ =>
      match digits_value 0 s with
      | Some z => Some (SF2Prim (binary_normalize prec emax z 0 false))
      | None => None
      end
  end.

(** An input file with one well-formed line among malformed ones, and the
    command lines used below. *)
Definition sample_lines : list string :=
  ["sun 2 0 0 0 1 0 0"; ""; "probe 1 2 3"; "far 1 2 3 4 5 6 7 8"]%string.

Definition argv_no_end_time : list string := ["nbody-E.py"; "input.txt"]%string.

Definition argv_bad_end_time : list string := ["nbody-E.py"; "input.txt"; "abc"]%string.

(** ** Further notions *)

(** The body that a line of seven numeric fields describes. *)
Definition line_body (py_float : string -> option float) (ln : string) : option body :=
  match floats_of py_float (tail (py_split ln)) with
  | Ok [m; px; py; pz; vx; vy; vz] =>
      Some (Body m (V3 px py pz) (V3 vx vy vz) zero3 zero3)
  | _ => None
  end.

(** A line all of whose trailing fields [float] accepts. *)
Definition all_numeric (py_float : string -> option float) (ln : string) : Prop :=
  Forall (fun t => is_Some (py_float t)) (tail (py_split ln)).

(** No pair of bodies at a zero computed distance. *)
Definition no_zero_distance (bs : list body) : bool :=
  forallb (fun bb => negb (distance bb.1 bb.2 =? 0)%float) (body_pairs bs).

(** The progress lines of a run, from the steps that report and the energy
    sampled at each: the time is the step number times 0.001, the drift is
    taken from the sample before, and from [prev] for the first. *)
Fixpoint report_lines (prev : float) (reports : list (Z * float)) : list line :=
  match reports with
  | [] => []
  | (k, E) :: rest =>
      Progress (0.001 * SF2Prim (binary_normalize prec emax k 0 false))%float E
        ((E - prev) / prev)%float
      :: report_lines E rest
  end.

(** The steps of a run up to, not including, [n] that report: the multiples
    of 100. *)
Definition reporting_steps (n : Z) : list Z :=
  map (fun i => (100 * Z.of_nat i)%Z) (seq 1 (Z.to_nat ((n - 1) / 100))).

(** The two unit masses of [two_bodies_heap], moving the other way and with
    accelerations left from an earlier force evaluation. *)
Definition two_bodies_moving_heap : heap :=
  [V3 0 0 0; V3 0 (-2) 1; V3 3 0 0; V3 0 0 4;
   V3 1 0 0; V3 5 0 0; V3 0 6 0; V3 7 0 0].

Definition argv_no_file : list string := ["nbody-E.py"]%string.

(** The store after [k] calls of [step(0.001)] that returned. *)
Definition heap_after (pow15 : float -> result float) (c : cluster) (k : nat)
    (h : heap) : heap :=
  Nat.iter k (fun h' => (step pow15 c 0.001 h').1) h.

(** Input lines whose fields are separated by a no-break space (U+00A0) and by
    a next-line control (U+0085). *)
Definition nbsp_line : string :=
  ("p" ++ String (ascii_of_nat 160) "1 2 3 4 5 6 7")%string.

Definition nel_line : string :=
  ("q 1" ++ String (ascii_of_nat 133) "2 3")%string.

(** One reduction step of a run of the driver's monad. *)
Ltac run_step := cbv beta iota; cbn [w_heap w_out w_calls fst snd].

(** * Lemmas *)

(** ** The monad *)

Lemma foreach_app {S X} (xs ys : list X) (f : X -> M S unit) s :
  foreach (xs ++ ys) f s = (foreach xs f >> foreach ys f) s.
Proof.
  revert s. induction xs as [|x xs IH]; intros s; simpl.
  - reflexivity.
  - unfold bind. destruct (f x s) as [s1 [[]|e]]; [|reflexivity].
    rewrite IH. reflexivity.
Qed.

(** ** The store *)

Lemma lk_insert (h : heap) (l l' : loc) (u : vec3) :
  l < length h ->
  lk (<[l := u]> h) l' = if decide (l = l') then u else lk h l'.
Proof.
  intros Hl. unfold lk. destruct (decide (l = l')) as [->|Hne].
  - by rewrite list_lookup_insert_eq.
  - by rewrite list_lookup_insert_ne.
Qed.

Lemma iadd_run (l : loc) (x y z : float) (h : heap) :
  l < length h ->
  (iadd l X0 x >> iadd l X1 y >> iadd l X2 z) h
  = (<[l := vadd (lk h l) (V3 x y z)]> h, Ok tt).
Proof.
  intros Hl. unfold iadd, bind, getitem, setitem. simpl.
  rewrite !lk_insert by (rewrite ?length_insert; done).
  rewrite !decide_True by done.
  rewrite !list_insert_insert_eq. destruct (lk h l); reflexivity.
Qed.

Lemma isub_then (A : Type) (l : loc) (x y z : float) (k : M (list vec3) A) (h : heap) :
  l < length h ->
  (isub l X0 x >> isub l X1 y >> isub l X2 z >> k) h
  = k (<[l := vsub (lk h l) (V3 x y z)]> h).
Proof.
  intros Hl. unfold isub, bind, getitem, setitem. simpl.
  rewrite !lk_insert by (rewrite ?length_insert; done).
  rewrite !decide_True by done.
  rewrite !list_insert_insert_eq. destruct (lk h l); reflexivity.
Qed.

(** ** Separate storage *)

Lemma cell_in_cells (f : field) (p : particle) : cell f p ∈ cells p.
Proof. destruct f; unfold cells; simpl; rewrite !elem_of_cons; tauto. Qed.

Lemma all_cells_cons (p : particle) (rest : cluster) :
  all_cells (p :: rest) = cells p ++ all_cells rest.
Proof. reflexivity. Qed.

Lemma cells_in_all (self : cluster) (i : nat) (p : particle) (l : loc) :
  self !! i = Some p -> l ∈ cells p -> l ∈ all_cells self.
Proof.
  revert i.
  induction self as [|p0 rest IH]; intros i Hp Hl; [done|].
  rewrite all_cells_cons. apply elem_of_app. destruct i as [|i]; simpl in Hp.
  - left. by simplify_eq.
  - right. by apply IH with i.
Qed.

Lemma cells_nodup (p : particle) (f g : field) :
  NoDup (cells p) -> cell f p = cell g p -> f = g.
Proof.
  unfold cells. intros Hnd E.
  apply NoDup_cons in Hnd as [H1 Hnd].
  apply NoDup_cons in Hnd as [H2 Hnd].
  apply NoDup_cons in Hnd as [H3 _].
  repeat setoid_rewrite elem_of_cons in H1.
  repeat setoid_rewrite elem_of_cons in H2.
  repeat setoid_rewrite elem_of_cons in H3.
  destruct f, g; simpl in E; try reflexivity; exfalso; intuition congruence.
Qed.

Lemma cell_inj (self : cluster) (i k : nat) (p q : particle) (f g : field) :
  NoDup (all_cells self) ->
  self !! i = Some p -> self !! k = Some q ->
  cell f p = cell g q -> i = k /\ f = g.
Proof.
  revert i k.
  induction self as [|p0 rest IH]; intros i k Hnd Hi Hk E; [done|].
  rewrite all_cells_cons in Hnd. apply NoDup_app in Hnd as (Hp0 & Hdisj & Hrest).
  destruct i as [|i], k as [|k]; simpl in Hi, Hk.
  - simplify_eq. split; [done|]. eapply cells_nodup; eauto.
  - simplify_eq. exfalso. apply (Hdisj (cell f p)); [apply cell_in_cells|].
    rewrite E. apply (cells_in_all rest k q); [done|apply cell_in_cells].
  - simplify_eq. exfalso. apply (Hdisj (cell g q)); [apply cell_in_cells|].
    rewrite <- E. apply (cells_in_all rest i p); [done|apply cell_in_cells].
  - destruct (IH i k Hrest Hi Hk E) as [-> ->]. done.
Qed.

Lemma cell_bound (self : cluster) (h : heap) (i : nat) (p : particle) (f : field) :
  separate self h -> self !! i = Some p -> cell f p < length h.
Proof.
  intros [_ Hb] Hp. rewrite Forall_forall in Hb. apply Hb.
  apply (cells_in_all self i p); [done|apply cell_in_cells].
Qed.

Lemma separate_insert (self : cluster) (h : heap) (l : loc) (u : vec3) :
  separate self h -> separate self (<[l := u]> h).
Proof. intros [H1 H2]. split; [done|]. by rewrite length_insert. Qed.

Lemma view_insert (self : cluster) (h : heap) (i k : nat) (p q : particle)
    (f : field) (u : vec3) :
  separate self h -> self !! i = Some p -> self !! k = Some q ->
  view (<[cell f p := u]> h) q
  = if decide (i = k) then put f u (view h q) else view h q.
Proof.
  intros Hs Hi Hk.
  assert (Hlt : cell f p < length h) by by apply cell_bound with self i.
  assert (Hg : forall g, lk (<[cell f p := u]> h) (cell g q)
      = if decide (i = k /\ f = g) then u else lk h (cell g q)).
  { intros g. rewrite lk_insert by done.
    destruct (decide (cell f p = cell g q)) as [E|E].
    - destruct (cell_inj self i k p q f g (proj1 Hs) Hi Hk E) as [-> ->].
      by rewrite decide_True.
    - rewrite decide_False; [done|]. intros [-> ->]. by simplify_eq. }
  unfold view.
  change (p_r q) with (cell Fr q). change (p_v q) with (cell Fv q).
  change (p_a q) with (cell Fa q). change (p_oa q) with (cell Foa q).
  rewrite !Hg.
  destruct (decide (i = k)) as [->|Hne].
  - destruct f; simpl;
      repeat (first [rewrite decide_True by done | rewrite decide_False by (intros [_ ?]; done)]);
      reflexivity.
  - rewrite !decide_False by (intros [? _]; done). reflexivity.
Qed.

Lemma bodies_lookup (self : cluster) (h : heap) (i : nat) :
  bodies self h !! i = view h <$> self !! i.
Proof. unfold bodies. apply list_lookup_fmap. Qed.

Lemma bodies_length (self : cluster) (h : heap) : length (bodies self h) = length self.
Proof. unfold bodies. apply length_map. Qed.

Lemma bodies_insert (self : cluster) (h : heap) (i : nat) (p : particle)
    (f : field) (u : vec3) :
  separate self h -> self !! i = Some p ->
  bodies self (<[cell f p := u]> h) = alter (put f u) i (bodies self h).
Proof.
  intros Hs Hi. apply list_eq. intros k.
  rewrite bodies_lookup.
  destruct (decide (i = k)) as [->|Hne].
  - rewrite list_lookup_alter_eq, bodies_lookup, Hi. simpl.
    rewrite (view_insert self h k k p p) by done. by rewrite decide_True.
  - rewrite list_lookup_alter_ne by done. rewrite bodies_lookup.
    destruct (self !! k) as [q|] eqn:Hk; [|done]. simpl.
    rewrite (view_insert self h i k p q) by done. by rewrite decide_False.
Qed.

Lemma bodies_insert_r (self : cluster) (h : heap) (i : nat) (p : particle) (u : vec3) :
  separate self h -> self !! i = Some p ->
  bodies self (<[p_r p := u]> h) = alter (with_position u) i (bodies self h).
Proof. apply (bodies_insert self h i p Fr u). Qed.

Lemma bodies_insert_v (self : cluster) (h : heap) (i : nat) (p : particle) (u : vec3) :
  separate self h -> self !! i = Some p ->
  bodies self (<[p_v p := u]> h) = alter (with_velocity u) i (bodies self h).
Proof. apply (bodies_insert self h i p Fv u). Qed.

Lemma bodies_insert_a (self : cluster) (h : heap) (i : nat) (p : particle) (u : vec3) :
  separate self h -> self !! i = Some p ->
  bodies self (<[p_a p := u]> h) = alter (with_acceleration u) i (bodies self h).
Proof. apply (bodies_insert self h i p Fa u). Qed.

Lemma bodies_insert_oa (self : cluster) (h : heap) (i : nat) (p : particle) (u : vec3) :
  separate self h -> self !! i = Some p ->
  bodies self (<[p_oa p := u]> h) = alter (with_previous u) i (bodies self h).
Proof. apply (bodies_insert self h i p Foa u). Qed.

(** ** Loops that update one particle at a time *)

Lemma foreach_pointwise (self : cluster) (f : particle -> M heap unit) (F : body -> body) :
  (forall h i p, separate self h -> self !! i = Some p ->
     separate self (f p h).1 /\
     bodies self (f p h).1 = alter F i (bodies self h) /\
     (f p h).2 = Ok tt) ->
  refines self (foreach self f) (fun bs => (map F bs, Ok tt)).
Proof.
  intros Hf.
  assert (G : forall ps k h, drop k self = ps -> separate self h ->
     separate self (foreach ps f h).1 /\
     bodies self (foreach ps f h).1
       = take k (bodies self h) ++ map F (drop k (bodies self h)) /\
     (foreach ps f h).2 = Ok tt).
  { induction ps as [|p ps IH]; intros k h Hd Hs.
    - simpl. split; [done|]. split; [|done].
      assert (Hk : length (bodies self h) <= k).
      { rewrite bodies_length. apply (f_equal length) in Hd.
        rewrite length_drop in Hd. simpl in Hd. lia. }
      rewrite take_ge, drop_ge by done. simpl. by rewrite app_nil_r.
    - assert (Hk : self !! k = Some p).
      { rewrite <- (Nat.add_0_r k), <- lookup_drop, Hd. done. }
      assert (Hd' : drop (S k) self = ps).
      { rewrite (drop_S self p k Hk) in Hd. by simplify_eq. }
      destruct (Hf h k p Hs Hk) as (Hs1 & Hb1 & Hr1).
      simpl. unfold bind. destruct (f p h) as [h1 r1]. simpl in Hs1, Hb1, Hr1.
      subst r1. destruct (IH (S k) h1 Hd' Hs1) as (Hs2 & Hb2 & Hr2).
      split; [done|]. split; [|done].
      rewrite Hb2, Hb1.
      assert (Hbk : bodies self h !! k = Some (view h p)).
      { by rewrite bodies_lookup, Hk. }
      rewrite (take_S_r _ k (F (view h p)))
        by (by rewrite list_lookup_alter_eq, Hbk).
      rewrite take_alter_ge, drop_alter_lt by lia.
      rewrite (drop_S (bodies self h) (view h p) k Hbk). simpl.
      by rewrite <- app_assoc. }
  intros h Hs. destruct (G self 0 h eq_refl Hs) as (H1 & H2 & H3).
  split; [done|]. split; [|done]. by rewrite H2, drop_0.
Qed.

Lemma agree_bind (self : cluster) (m1 m2 : M heap unit) (g1 g2 : M (list body) unit)
    (h : heap) (bs : list body) :
  agree self (m1 h) (g1 bs) ->
  (forall h1, separate self h1 -> agree self (m2 h1) (g2 (bodies self h1))) ->
  agree self ((m1 >> m2) h) ((g1 >> g2) bs).
Proof.
  intros (Hs1 & Hb1 & Hr1) H2. unfold bind.
  destruct (m1 h) as [h1 r1], (g1 bs) as [bs1 r1'].
  simpl in *. subst r1' bs1. destruct r1 as [[]|e]; [|done].
  apply (H2 h1 Hs1).
Qed.

Lemma refines_seq (self : cluster) (m1 m2 : M heap unit) (g1 g2 : M (list body) unit) :
  refines self m1 g1 -> refines self m2 g2 -> refines self (m1 >> m2) (g1 >> g2).
Proof.
  intros H1 H2 h Hs. apply agree_bind; [by apply H1|]. apply H2.
Qed.

(** ** The force kernel *)

Section KernelProofs.

Variable pow15 : float -> result float.

Lemma handoff_refines (self : cluster) :
  refines self
    (foreach self (fun p =>
       let* a := load (p_a p) in
       store (p_oa p) a >>
       store (p_a p) (V3 0 0 0)))
    (fun bs => (map handoff bs, Ok tt)).
Proof.
  apply foreach_pointwise. intros h i p Hs Hi.
  unfold bind, load, store. simpl.
  split; [by do 2 apply separate_insert|]. split; [|done].
  rewrite (bodies_insert_a self (<[p_oa p := lk h (p_a p)]> h) i p)
    by (by try apply separate_insert).
  rewrite (bodies_insert_oa self h i p) by done.
  rewrite list_alter_alter_eq. apply list_alter_ext; [|done].
  intros b Hb. rewrite bodies_lookup, Hi in Hb. simpl in Hb.
  injection Hb as <-. reflexivity.
Qed.

Lemma interact_frame (ij : nat * nat) (bs : list body) :
  map frame (interact pow15 ij bs).1 = map frame bs.
Proof.
  unfold interact. destruct ij as [i j]. simpl.
  destruct (bs !! i) as [bi|] eqn:Hi; [|done].
  destruct (bs !! j) as [bj|] eqn:Hj; [|done].
  simpl. destruct (pow15 _) as [d|e]; [|done].
  destruct (d =? 0)%float; [done|]. simpl.
  apply list_eq. intros k. rewrite !list_lookup_fmap.
  rewrite !list_lookup_alter.
  repeat case_decide; subst; rewrite ?Hi, ?Hj; try reflexivity;
    destruct (bs !! k); reflexivity.
Qed.

Lemma foreach_interact_frame (pairs : list (nat * nat)) (bs : list body) :
  map frame (foreach pairs (interact pow15) bs).1 = map frame bs.
Proof.
  revert bs. induction pairs as [|ij pairs IH]; intros bs; [done|].
  simpl. unfold bind.
  pose proof (interact_frame ij bs) as Hf.
  destruct (interact pow15 ij bs) as [bs1 [[]|e]]; simpl in *; [|done].
  by rewrite IH.
Qed.

Lemma accelerate_pair_run (self : cluster) (h : heap) (j : nat) (p1 p2 : particle) (r1 : vec3) :
  self !! j = Some p2 -> p_a p1 < length h -> p_a p2 < length h ->
  accelerate_pair pow15 self p1 r1 j h =
  let delta := vsub r1 (lk h (p_r p2)) in
  match pow15 (dot delta delta) with
  | Raise e => (h, Raise e)
  | Ok d =>
      if (d =? 0)%float then (h, Raise ZeroDivisionError)
      else
        let h1 := <[p_a p1 := vsub (lk h (p_a p1)) (scale (p_mass p2 / d) delta)]> h in
        (<[p_a p2 := vadd (lk h1 (p_a p2)) (scale (p_mass p1 / d) delta)]> h1, Ok tt)
  end.
Proof.
  intros Hp2 Ha1 Ha2. unfold accelerate_pair. rewrite Hp2.
  unfold bind at 1. unfold load at 1. cbv beta iota zeta.
  unfold bind at 1. unfold lift at 1. unfold dot, vsub. cbn [c0 c1 c2].
  destruct (pow15 _) as [d|e]; [|reflexivity].
  unfold bind at 1. unfold lift at 1. unfold py_div at 1.
  destruct (d =? 0)%float eqn:Hd; [reflexivity|].
  rewrite isub_then by done.
  unfold bind at 1. unfold lift at 1. unfold py_div at 1. rewrite Hd.
  rewrite iadd_run by (by rewrite length_insert).
  reflexivity.
Qed.

Lemma accelerate_pair_refines (self : cluster) (h : heap) (i j : nat) (p1 : particle) :
  separate self h -> self !! i = Some p1 -> j < length self ->
  let m := accelerate_pair pow15 self p1 (lk h (p_r p1)) j h in
  let g := interact pow15 (i, j) (bodies self h) in
  separate self m.1 /\ bodies self m.1 = g.1 /\ m.2 = g.2.
Proof.
  intros Hs Hi Hj.
  destruct (lookup_lt_is_Some_2 self j Hj) as [p2 Hp2].
  assert (Ha1 : p_a p1 < length h) by apply (cell_bound self h i p1 Fa Hs Hi).
  assert (Ha2 : p_a p2 < length h) by apply (cell_bound self h j p2 Fa Hs Hp2).
  rewrite (accelerate_pair_run self h j p1 p2 _ Hp2 Ha1 Ha2).
  unfold interact. cbn [fst snd]. rewrite !bodies_lookup, Hi, Hp2.
  cbn [fmap option_fmap option_map view position mass].
  cbv zeta.
  destruct (pow15 _) as [d|e]; [|done].
  destruct (d =? 0)%float eqn:Hd; [done|].
  cbn [fst snd]. split; [by do 2 apply separate_insert|]. split; [|done].
  match goal with |- bodies self (<[p_a p2 := ?u2]> (<[p_a p1 := ?u1]> h)) = _ =>
    rewrite (bodies_insert_a self (<[p_a p1 := u1]> h) j p2 u2)
      by (by try apply separate_insert);
    pose proof (bodies_insert_a self h i p1 u1 Hs Hi) as Hh1
  end.
  rewrite Hh1. apply list_alter_ext.
  - intros b Hb. rewrite <- Hh1, bodies_lookup, Hp2 in Hb. simpl in Hb.
    injection Hb as <-. reflexivity.
  - apply list_alter_ext; [|done].
    intros b Hb. rewrite bodies_lookup, Hi in Hb. simpl in Hb.
    injection Hb as <-. reflexivity.
Qed.

Lemma frame_position (self : cluster) (h h' : heap) (i : nat) (p : particle) :
  map frame (bodies self h') = map frame (bodies self h) ->
  self !! i = Some p -> lk h' (p_r p) = lk h (p_r p).
Proof.
  intros Hf Hi. apply (f_equal (fun l => l !! i)) in Hf.
  rewrite !list_lookup_fmap, !bodies_lookup, Hi in Hf. simpl in Hf.
  unfold frame in Hf. simpl in Hf. congruence.
Qed.

Lemma inner_refines (self : cluster) (i : nat) (p1 : particle) (js : list nat) (h : heap) :
  Forall (fun j => j < length self) js ->
  separate self h -> self !! i = Some p1 ->
  agree self
    (foreach js (accelerate_pair pow15 self p1 (lk h (p_r p1))) h)
    (foreach (map (pair i) js) (interact pow15) (bodies self h)).
Proof.
  intros Hjs. revert h. induction Hjs as [|j js Hj Hjs IH]; intros h Hs Hi; [done|].
  cbn [foreach map]. unfold bind.
  destruct (accelerate_pair_refines self h i j p1 Hs Hi Hj) as (Hs1 & Hb1 & Hr1).
  pose proof (interact_frame (i, j) (bodies self h)) as Hfr.
  destruct (accelerate_pair pow15 self p1 (lk h (p_r p1)) j h) as [h1 r1].
  destruct (interact pow15 (i, j) (bodies self h)) as [bs1 r1'].
  simpl in Hs1, Hb1, Hr1, Hfr. subst r1' bs1. destruct r1 as [[]|e]; [|done].
  rewrite <- (frame_position self h h1 i p1 Hfr Hi).
  apply (IH h1 Hs1 Hi).
Qed.

Lemma outer_refines (self : cluster) (ps : list particle) (k : nat) (h : heap) :
  drop k self = ps -> separate self h ->
  agree self
    (foreach (zip (seq k (length ps)) ps) (fun ip =>
       let '(i, p1) := ip in
       let* r1 := load (p_r p1) in
       foreach (range (i + 1) (length self)) (accelerate_pair pow15 self p1 r1)) h)
    (foreach
       (flat_map (fun i => map (pair i) (seq (S i) (length self - S i))) (seq k (length ps)))
       (interact pow15) (bodies self h)).
Proof.
  revert k h. induction ps as [|p ps IH]; intros k h Hd Hs; [done|].
  assert (Hk : self !! k = Some p).
  { rewrite <- (Nat.add_0_r k), <- lookup_drop, Hd. done. }
  assert (Hd' : drop (S k) self = ps).
  { rewrite (drop_S self p k Hk) in Hd. by simplify_eq. }
  cbn [length seq flat_map]. rewrite foreach_app.
  set (body := fun ip : nat * particle =>
       let '(i, p1) := ip in
       let* r1 := load (p_r p1) in
       foreach (range (i + 1) (length self)) (accelerate_pair pow15 self p1 r1)).
  change (foreach (zip (k :: seq (S k) (length ps)) (p :: ps)) body h)
    with ((body (k, p) >> foreach (zip (seq (S k) (length ps)) ps) body) h).
  apply agree_bind.
  - change (body (k, p) h) with
      (foreach (range (k + 1) (length self))
         (accelerate_pair pow15 self p (lk h (p_r p))) h).
    unfold range. rewrite Nat.add_1_r. apply inner_refines; [|done..].
    apply Forall_forall. intros j Hj. apply elem_of_seq in Hj. lia.
  - intros h1 Hs1. apply (IH (S k) h1 Hd' Hs1).
Qed.

Theorem accelerate_refines (self : cluster) :
  refines self (accelerate pow15 self) (recompute_accelerations pow15).
Proof.
  intros h Hs. unfold accelerate, recompute_accelerations.
  destruct (handoff_refines self h Hs) as (Hs1 & Hb1 & Hr1).
  unfold bind at 1 2 3.
  destruct (foreach self _ h) as [h1 r1]. simpl in Hs1, Hb1, Hr1. subst r1.
  rewrite <- Hb1, bodies_length.
  pose proof (outer_refines self self 0 h1 eq_refl Hs1) as Ho.
  unfold index_pairs, enumerate. cbv zeta. apply Ho.
Qed.

Lemma drift_run (dt : float) (p : particle) (h : heap) :
  p_r p < length h ->
  (let* v := load (p_v p) in
   let* a := load (p_a p) in
   iadd (p_r p) X0 (dt * c0 v + 0.5 * dt * dt * c0 a)%float >>
   iadd (p_r p) X1 (dt * c1 v + 0.5 * dt * dt * c1 a)%float >>
   iadd (p_r p) X2 (dt * c2 v + 0.5 * dt * dt * c2 a)%float) h
  = (<[p_r p := vadd (lk h (p_r p))
       (vadd (scale dt (lk h (p_v p))) (scale (0.5 * dt * dt) (lk h (p_a p))))]> h, Ok tt).
Proof.
  intros Hr. unfold bind at 1. unfold load at 1. cbv beta iota.
  unfold bind at 1. unfold load at 1. cbv beta iota.
  by apply iadd_run.
Qed.

Lemma drift_refines (self : cluster) (dt : float) :
  refines self
    (foreach self (fun p =>
       let* v := load (p_v p) in
       let* a := load (p_a p) in
       iadd (p_r p) X0 (dt * c0 v + 0.5 * dt * dt * c0 a)%float >>
       iadd (p_r p) X1 (dt * c1 v + 0.5 * dt * dt * c1 a)%float >>
       iadd (p_r p) X2 (dt * c2 v + 0.5 * dt * dt * c2 a)%float))
    (fun bs => (map (position_update dt) bs, Ok tt)).
Proof.
  apply foreach_pointwise. intros h i p Hs Hi.
  rewrite drift_run by apply (cell_bound self h i p Fr Hs Hi).
  cbn [fst snd]. split; [by apply separate_insert|]. split; [|done].
  rewrite (bodies_insert_r self h i p) by done.
  apply list_alter_ext; [|done].
  intros b Hb. rewrite bodies_lookup, Hi in Hb. simpl in Hb.
  injection Hb as <-. reflexivity.
Qed.

Lemma kick_run (dt : float) (p : particle) (h : heap) :
  p_v p < length h ->
  (let* a := load (p_a p) in
   let* oa := load (p_oa p) in
   iadd (p_v p) X0 (0.5 * dt * (c0 a + c0 oa))%float >>
   iadd (p_v p) X1 (0.5 * dt * (c1 a + c1 oa))%float >>
   iadd (p_v p) X2 (0.5 * dt * (c2 a + c2 oa))%float) h
  = (<[p_v p := vadd (lk h (p_v p))
       (scale (0.5 * dt) (vadd (lk h (p_a p)) (lk h (p_oa p))))]> h, Ok tt).
Proof.
  intros Hr. unfold bind at 1. unfold load at 1. cbv beta iota.
  unfold bind at 1. unfold load at 1. cbv beta iota.
  by apply iadd_run.
Qed.

Lemma kick_refines (self : cluster) (dt : float) :
  refines self
    (foreach self (fun p =>
       let* a := load (p_a p) in
       let* oa := load (p_oa p) in
       iadd (p_v p) X0 (0.5 * dt * (c0 a + c0 oa))%float >>
       iadd (p_v p) X1 (0.5 * dt * (c1 a + c1 oa))%float >>
       iadd (p_v p) X2 (0.5 * dt * (c2 a + c2 oa))%float))
    (fun bs => (map (velocity_update dt) bs, Ok tt)).
Proof.
  apply foreach_pointwise. intros h i p Hs Hi.
  rewrite kick_run by apply (cell_bound self h i p Fv Hs Hi).
  cbn [fst snd]. split; [by apply separate_insert|]. split; [|done].
  rewrite (bodies_insert_v self h i p) by done.
  apply list_alter_ext; [|done].
  intros b Hb. rewrite bodies_lookup, Hi in Hb. simpl in Hb.
  injection Hb as <-. reflexivity.
Qed.

Theorem step_refines (self : cluster) (dt : float) :
  refines self (step pow15 self dt) (verlet_step pow15 dt).
Proof.
  intros h Hs.
  pose proof (refines_seq self _ _ _ _ (drift_refines self dt)
    (refines_seq self _ _ _ _ (accelerate_refines self) (kick_refines self dt)) h Hs) as H.
  unfold step. cbv zeta.
  replace (verlet_step pow15 dt (bodies self h)) with
    (((fun bs => (map (position_update dt) bs, Ok tt)) >>
      recompute_accelerations pow15 >>
      (fun bs => (map (velocity_update dt) bs, Ok tt))) (bodies self h)); [exact H|].
  unfold verlet_step, bind.
  destruct (recompute_accelerations pow15 _) as [bs' [[]|e]]; reflexivity.
Qed.

End KernelProofs.

(** ** A sum of squares is never negative *)

Lemma binary_round_aux_not_negative (mx ex : Z) (lx : location) :
  not_negative (binary_round_aux prec emax false mx ex lx).
Proof.
  unfold binary_round_aux.
  destruct (shr_fexp prec emax mx ex lx) as [mrs' e'].
  destruct (shr_fexp prec emax _ e' loc_Exact) as [mrs'' e''].
  destruct (shr_m mrs''); simpl; [done| |done].
  destruct (Z.leb _ _); done.
Qed.

Lemma binary_round_not_negative (m : positive) (e : Z) :
  not_negative (binary_round prec emax false m e).
Proof.
  unfold binary_round.
  destruct (shl_align m e (fexp prec emax (Z.pos (digits2_pos m) + e))) as [mz ez].
  apply binary_round_aux_not_negative.
Qed.

Lemma SFmul_self_not_negative (x : spec_float) : not_negative (SF64mul x x).
Proof.
  destruct x as [[]|[]| |[] m e]; try done; apply binary_round_aux_not_negative.
Qed.

Lemma SFadd_not_negative (x y : spec_float) :
  not_negative x -> not_negative y -> not_negative (SF64add x y).
Proof.
  destruct x as [s|s| |s m e], y as [s'|s'| |s' m' e'];
    cbn [not_negative]; intros; subst; try done.
  unfold SF64add, SFadd, cond_Zopp, binary_normalize. cbn [Z.add].
  apply binary_round_not_negative.
Qed.

Lemma not_negative_ltb (x : float) :
  not_negative (Prim2SF x) -> (x <? 0)%float = false.
Proof.
  intros H. rewrite ltb_spec.
  change (Prim2SF 0) with (S754_zero false).
  destruct (Prim2SF x) as [s|s| |s m e]; simpl in H; subst; reflexivity.
Qed.

Lemma dot_self_not_negative (u : vec3) : (dot u u <? 0)%float = false.
Proof.
  apply not_negative_ltb. unfold dot.
  rewrite !add_spec, !mul_spec.
  repeat apply SFadd_not_negative; apply SFmul_self_not_negative.
Qed.

Lemma py_sqrt_dot_self (u : vec3) : py_sqrt (dot u u) = Ok (sqrt (dot u u)).
Proof. unfold py_sqrt. by rewrite dot_self_not_negative. Qed.

(** ** Pairs of indices and pairs of elements *)

Lemma index_pairs_elem (n i j : nat) : (i, j) ∈ index_pairs n <-> i < j < n.
Proof.
  unfold index_pairs. rewrite list_elem_of_In, in_flat_map. split.
  - intros (k & Hk & Hij). apply in_map_iff in Hij as (j' & Heq & Hj').
    apply in_seq in Hk, Hj'. simplify_eq. lia.
  - intros Hij. exists i. split; [apply in_seq; lia|].
    apply in_map_iff. exists j. split; [done|]. apply in_seq. lia.
Qed.

Lemma lookup_total_seq_drop {A} `{Inhabited A} (l : list A) (a : nat) :
  (fun j => l !!! j) <$> seq a (length l - a) = drop a l.
Proof.
  apply list_eq. intros i. rewrite list_lookup_fmap, lookup_drop.
  destruct (decide (i < length l - a)) as [Hi|Hi].
  - rewrite lookup_seq_lt by done. simpl.
    symmetry. apply list_lookup_lookup_total_lt. lia.
  - rewrite lookup_seq_ge by lia. simpl.
    symmetry. apply lookup_ge_None. lia.
Qed.

Lemma combinations2_drop {A} `{Inhabited A} (l ps : list A) (k : nat) :
  drop k l = ps ->
  map (fun ij : nat * nat => (l !!! ij.1, l !!! ij.2))
    (flat_map (fun i => map (pair i) (seq (S i) (length l - S i))) (seq k (length l - k)))
  = combinations2 ps.
Proof.
  revert k. induction ps as [|p ps IH]; intros k Hd.
  - apply (f_equal length) in Hd. rewrite length_drop in Hd. simpl in Hd.
    by replace (length l - k) with 0 by lia.
  - assert (Hk : l !! k = Some p).
    { rewrite <- (Nat.add_0_r k), <- lookup_drop, Hd. done. }
    assert (Hd' : drop (S k) l = ps).
    { rewrite (drop_S l p k Hk) in Hd. by simplify_eq. }
    assert (Hlt : k < length l) by (by apply lookup_lt_Some with p).
    replace (length l - k) with (S (length l - S k)) by lia.
    cbn [seq flat_map combinations2]. rewrite map_app, map_map. cbn [fst snd].
    rewrite (IH (S k) Hd'). f_equal.
    rewrite (list_lookup_total_correct l k p Hk).
    rewrite <- Hd', <- (lookup_total_seq_drop l (S k)).
    by rewrite <- list_fmap_compose.
Qed.

Lemma combinations2_index_pairs {A} `{Inhabited A} (l : list A) :
  combinations2 l
  = map (fun ij : nat * nat => (l !!! ij.1, l !!! ij.2)) (index_pairs (length l)).
Proof.
  unfold index_pairs. symmetry.
  pose proof (combinations2_drop l l 0 eq_refl) as Hc.
  by rewrite Nat.sub_0_r in Hc.
Qed.

Lemma combinations2_fmap {A B} (f : A -> B) (l : list A) :
  combinations2 (map f l) = map (fun pq => (f pq.1, f pq.2)) (combinations2 l).
Proof.
  induction l as [|x l IH]; [done|].
  cbn [map combinations2]. rewrite map_app, IH, !map_map. done.
Qed.

(** ** The energy diagnostic *)

Lemma kinetic_run (ps : cluster) (ke : float) (h : heap) :
  foldM (fun ke p =>
      let* v := load (p_v p) in
      let '(V3 vx vy vz) := v in
      ret (ke + 0.5 * p_mass p * (vx * vx + vy * vy + vz * vz))%float) ps ke h
  = (h, Ok (fold_left (fun ke b => ke + 0.5 * mass b * dot (velocity b) (velocity b))%float
              (bodies ps h) ke)).
Proof.
  revert ke. induction ps as [|p ps IH]; intros ke; [done|].
  cbn [foldM bodies map fold_left].
  change (velocity (view h p)) with (lk h (p_v p)).
  change (mass (view h p)) with (p_mass p).
  unfold bind at 1. unfold bind at 1. unfold load at 1. cbv beta iota.
  unfold dot. destruct (lk h (p_v p)) as [vx vy vz]. cbn [c0 c1 c2].
  unfold ret at 1. cbv beta iota. apply IH.
Qed.

Lemma potential_run (pairs : list (particle * particle)) (pe : float) (h : heap) :
  foldM (fun pe pq =>
      let '(p, q) := pq in
      let* r1 := load (p_r p) in
      let* r2 := load (p_r q) in
      let dx := (c0 r1 - c0 r2)%float in
      let dy := (c1 r1 - c1 r2)%float in
      let dz := (c2 r1 - c2 r2)%float in
      let* d := lift (py_sqrt (dx * dx + dy * dy + dz * dz)%float) in
      let* t := lift (py_div (p_mass p * p_mass q)%float d) in
      ret (pe - t)%float) pairs pe h
  = (h, potential_from pe (map (fun pq => (view h pq.1, view h pq.2)) pairs)).
Proof.
  revert pe. induction pairs as [|[p q] pairs IH]; intros pe; [done|].
  cbn [foldM map potential_from fst snd]. unfold bind at 1.
  unfold potential_step, dot, vsub. cbn [fst snd view position mass c0 c1 c2].
  unfold bind at 1. unfold load at 1. cbv beta iota zeta.
  unfold bind at 1. unfold load at 1. cbv beta iota zeta.
  unfold bind at 1. unfold lift at 1.
  destruct (py_sqrt _) as [d|e]; [|done].
  unfold bind at 1. unfold lift at 1.
  destruct (py_div _ d) as [t|e]; [|done].
  unfold ret at 1. apply IH.
Qed.

Lemma get_energy_run (self : cluster) (h : heap) :
  get_energy self h =
  (h, match potential_from 0 (body_pairs (bodies self h)) with
      | Ok pe => Ok (kinetic_energy (bodies self h) + pe)%float
      | Raise e => Raise e
      end).
Proof.
  unfold get_energy. unfold bind at 1. rewrite kinetic_run.
  unfold bind at 1. rewrite potential_run.
  unfold body_pairs. rewrite <- combinations2_index_pairs.
  unfold bodies at 2. rewrite combinations2_fmap.
  by destruct (potential_from _ _).
Qed.

Lemma potential_from_defined (pairs : list (body * body)) (pe : float) :
  Forall (fun bb => (distance bb.1 bb.2 =? 0)%float = false) pairs ->
  potential_from pe pairs
  = Ok (fold_left (fun pe bb => pe - (mass bb.1 * mass bb.2) / distance bb.1 bb.2)%float
          pairs pe).
Proof.
  intros Hp. revert pe. induction Hp as [|bb pairs Hbb Hp IH]; intros pe; [done|].
  cbn [potential_from fold_left]. unfold potential_step.
  rewrite py_sqrt_dot_self. unfold py_div.
  unfold distance in Hbb. rewrite Hbb. apply IH.
Qed.

Lemma potential_from_singular (pairs : list (body * body)) (pe : float) :
  Exists (fun bb => (distance bb.1 bb.2 =? 0)%float = true) pairs ->
  potential_from pe pairs = Raise ZeroDivisionError.
Proof.
  intros Hp. revert pe. induction pairs as [|bb pairs IH]; intros pe.
  - by apply Exists_nil in Hp.
  - cbn [potential_from]. unfold potential_step.
    rewrite py_sqrt_dot_self. unfold py_div.
    destruct (sqrt _ =? 0)%float eqn:Hd; [done|].
    apply Exists_cons in Hp as [Hp|Hp].
    + unfold distance in Hp. congruence.
    + by apply IH.
Qed.

(** ** What the force kernel leaves behind *)

Section KernelFacts.

Variable pow15 : float -> result float.

Lemma frame_previous (bs bs' : list body) :
  map frame bs = map frame bs' ->
  map previous_acceleration bs = map previous_acceleration bs'.
Proof.
  intros Hf. apply (f_equal (map snd)) in Hf.
  by rewrite !map_map in Hf.
Qed.

Lemma recompute_frame (bs : list body) :
  map frame (recompute_accelerations pow15 bs).1 = map frame (map handoff bs).
Proof. unfold recompute_accelerations. apply foreach_interact_frame. Qed.

Lemma recompute_previous (bs : list body) :
  map previous_acceleration (recompute_accelerations pow15 bs).1 = map acceleration bs.
Proof.
  rewrite (frame_previous _ _ (recompute_frame bs)). by rewrite map_map.
Qed.

Lemma recompute_length (bs : list body) :
  length (recompute_accelerations pow15 bs).1 = length bs.
Proof.
  rewrite <- (length_map frame), recompute_frame. by rewrite !length_map.
Qed.

Lemma fmap_eq_Forall2 {A B} (f : A -> B) (l l' : list A) :
  map f l = map f l' -> Forall2 (fun x y => f x = f y) l l'.
Proof.
  revert l'. induction l as [|x l IH]; intros [|y l'] Hm; simplify_eq/=.
  - constructor.
  - constructor; [done|]. by apply IH.
Qed.

Lemma interact_same_dynamics (ij : nat * nat) (bs bs' : list body) :
  Forall2 same_dynamics bs bs' ->
  Forall2 same_dynamics (interact pow15 ij bs).1 (interact pow15 ij bs').1 /\
  (interact pow15 ij bs).2 = (interact pow15 ij bs').2.
Proof.
  intros HF. destruct ij as [i j]. unfold interact. cbn [fst snd].
  assert (Hlook : forall k,
    match bs !! k, bs' !! k with
    | Some b, Some b' => same_dynamics b b'
    | None, None => True
    | _, _ => False
    end).
  { intros k. destruct (bs !! k) as [b|] eqn:Hb.
    - destruct (Forall2_lookup_l _ _ _ _ _ HF Hb) as (b' & -> & Hbb). done.
    - apply lookup_ge_None in Hb. rewrite (Forall2_length _ _ _ HF) in Hb.
      apply lookup_ge_None in Hb. by rewrite Hb. }
  pose proof (Hlook i) as Hi. pose proof (Hlook j) as Hj.
  destruct (bs !! i) as [bi|], (bs' !! i) as [bi'|]; try done.
  destruct (bs !! j) as [bj|], (bs' !! j) as [bj'|]; try done.
  destruct Hi as (Hmi & Hpi & _), Hj as (Hmj & Hpj & _).
  rewrite Hmi, Hpi, Hmj, Hpj. cbv zeta.
  destruct (pow15 _) as [d|e]; [|done].
  destruct (d =? 0)%float; [done|].
  cbn [fst snd]. split; [|done].
  apply Forall2_alter; [apply Forall2_alter; [done|]|];
    intros b b' _ _ (Hm & Hp & Ha); repeat split; cbn; congruence.
Qed.

Lemma foreach_same_dynamics (pairs : list (nat * nat)) (bs bs' : list body) :
  Forall2 same_dynamics bs bs' ->
  Forall2 same_dynamics (foreach pairs (interact pow15) bs).1
    (foreach pairs (interact pow15) bs').1 /\
  (foreach pairs (interact pow15) bs).2 = (foreach pairs (interact pow15) bs').2.
Proof.
  revert bs bs'. induction pairs as [|ij pairs IH]; intros bs bs' HF; [done|].
  cbn [foreach]. unfold bind.
  destruct (interact_same_dynamics ij bs bs' HF) as [H1 H2].
  destruct (interact pow15 ij bs) as [bs1 r1], (interact pow15 ij bs') as [bs1' r1'].
  cbn [fst snd] in H1, H2. subst r1'. destruct r1 as [[]|e]; [|done].
  by apply IH.
Qed.

Lemma same_dynamics_acceleration (bs bs' : list body) :
  Forall2 same_dynamics bs bs' -> map acceleration bs = map acceleration bs'.
Proof.
  induction 1 as [|b b' bs bs' (_ & _ & Ha) _ IH]; [done|].
  cbn [map]. by rewrite Ha, IH.
Qed.

Lemma recompute_again (bs : list body) :
  let once := recompute_accelerations pow15 bs in
  let twice := recompute_accelerations pow15 once.1 in
  map acceleration twice.1 = map acceleration once.1 /\
  map previous_acceleration twice.1 = map acceleration once.1 /\
  twice.2 = once.2.
Proof.
  cbv zeta. split; [|split]; [| apply recompute_previous |].
  all: unfold recompute_accelerations at 1 3; rewrite recompute_length.
  all: assert (HF : Forall2 same_dynamics
         (map handoff (recompute_accelerations pow15 bs).1) (map handoff bs)).
  all: try (apply Forall2_fmap;
    pose proof (fmap_eq_Forall2 _ _ _ (recompute_frame bs)) as Hfr;
    apply Forall2_fmap_r in Hfr;
    eapply Forall2_impl; [exact Hfr|];
    intros b b' Hbb; unfold frame in Hbb; cbn in Hbb;
    repeat split; cbn; congruence).
  - apply same_dynamics_acceleration.
    apply (foreach_same_dynamics _ _ _ HF).
  - apply (foreach_same_dynamics _ _ _ HF).
Qed.

(** If a pair of the pass raises whatever the accelerations are, the pass
    raises. *)
Lemma foreach_interact_raises (pairs : list (nat * nat)) (ij : nat * nat) (bs : list body) :
  ij ∈ pairs ->
  (forall bs', map frame bs' = map frame bs -> (interact pow15 ij bs').2 <> Ok tt) ->
  (foreach pairs (interact pow15) bs).2 <> Ok tt.
Proof.
  intros Hin Hraise. revert bs Hraise.
  induction pairs as [|ij' pairs IH]; intros bs Hraise; [by apply not_elem_of_nil in Hin|].
  cbn [foreach]. unfold bind.
  pose proof (interact_frame pow15 ij' bs) as Hfr.
  destruct (interact pow15 ij' bs) as [bs1 [[]|e]] eqn:E; [|done].
  cbn [fst] in Hfr.
  apply elem_of_cons in Hin as [->|Hin].
  - exfalso. apply (Hraise bs eq_refl). by rewrite E.
  - apply IH; [done|]. intros bs' Hbs'. apply Hraise. by rewrite Hbs'.
Qed.

End KernelFacts.

(** ** The driver *)

Section DriverProofs.

Variable pow15 : float -> result float.
Variable py_float : string -> option float.

Lemma floats_of_numeric (tokens : list string) :
  Forall (fun t => is_Some (py_float t)) tokens ->
  exists xs, floats_of py_float tokens = Ok xs /\ length xs = length tokens.
Proof.
  induction 1 as [|t tokens [x Hx] _ (xs & Hxs & Hlen)].
  - by exists [].
  - exists (x :: xs). cbn [floats_of]. unfold float_of_str.
    rewrite Hx, Hxs. cbn. by rewrite Hlen.
Qed.

Lemma floats_of_invalid (tokens : list string) :
  Exists (fun t => py_float t = None) tokens ->
  floats_of py_float tokens = Raise ValueError.
Proof.
  induction 1 as [t tokens Ht|t tokens _ IH]; cbn [floats_of]; unfold float_of_str.
  - by rewrite Ht.
  - destruct (py_float t); [|done]. by rewrite IH.
Qed.

Lemma call_Particle_arity (xs : list float) (h : heap) :
  length xs <> 7 -> call_Particle xs h = (h, Raise TypeError).
Proof.
  intros Hlen.
  destruct xs as [|? [|? [|? [|? [|? [|? [|? [|? ?]]]]]]]]; cbn in Hlen; try done.
Qed.

Lemma load_line_skip (c : cluster) (ln : string) (h : heap) :
  Forall (fun t => is_Some (py_float t)) (tail (py_split ln)) ->
  length (tail (py_split ln)) <> 7 ->
  load_line py_float c ln h = (h, Ok c).
Proof.
  intros Hnum Hlen. destruct (floats_of_numeric _ Hnum) as (xs & Hxs & Hl).
  unfold load_line, catch, bind, lift. rewrite Hxs.
  rewrite call_Particle_arity by congruence. reflexivity.
Qed.

Lemma load_line_invalid (c : cluster) (ln : string) (h : heap) :
  Exists (fun t => py_float t = None) (tail (py_split ln)) ->
  load_line py_float c ln h = (h, Raise ValueError).
Proof.
  intros Hbad. unfold load_line, catch, bind, lift.
  rewrite floats_of_invalid by done. reflexivity.
Qed.

Lemma time_end_of_cases (argv : list string) :
  time_end_of py_float argv =
  match argv !! 2 with
  | None => Ok 10%float
  | Some s =>
      match py_float s with
      | Some x => Ok x
      | None => Raise ValueError
      end
  end.
Proof.
  unfold time_end_of, argv_at, float_of_str. by destruct (argv !! 2).
Qed.

(** One turn of the main loop: one more call of [step], and either nothing
    printed and the energies kept, or one progress line whose energy becomes
    both energies. *)
Lemma loop_body_effect (c : cluster) (ts : float) (es : energies) (k : Z) (w : world) :
  let run := loop_body pow15 c ts es k w in
  w_calls run.1 = S (w_calls w) /\
  match run.2 with
  | Ok es' =>
      (w_out run.1 = w_out w /\ es' = es) \/
      (exists t E d, w_out run.1 = w_out w ++ [Progress t E d] /\ es' = Energies E E)
  | Raise _ => True
  end.
Proof.
  unfold loop_body, tick, on_heap, bind, print, lift, ret. cbn.
  repeat (match goal with
    | |- context [step ?a ?b ?c ?d] => destruct (step a b c d) as [? [[]|?]]
    | |- context [get_energy ?a ?b] => destruct (get_energy a b) as [? [?|?]]
    | |- context [float_of_int ?a] => destruct (float_of_int a) as [?|?]
    | |- context [py_div ?a ?b] => destruct (py_div a b) as [?|?]
    | |- context [(?a =? 0)%Z] => destruct (a =? 0)%Z
    end; cbn); try done.
  all: split; [done|]; first [by left | right; by eexists _, _, _].
Qed.

Lemma loop_effect (c : cluster) (ts : float) (steps : list Z) (es : energies) (w : world) :
  let run := foldM (loop_body pow15 c ts) steps es w in
  match run.2 with
  | Ok es' =>
      w_calls run.1 = w_calls w + length steps /\
      exists out,
        w_out run.1 = w_out w ++ out /\ drifts out = [] /\
        energy es' = default (energy es) (last (samples out)) /\
        (out = [] -> es' = es)
  | Raise _ => True
  end.
Proof.
  revert es w. induction steps as [|k steps IH]; intros es w.
  - cbn. split; [lia|]. exists []. by rewrite app_nil_r.
  - cbn [foldM]. unfold bind.
    pose proof (loop_body_effect c ts es k w) as Hb.
    destruct (loop_body pow15 c ts es k w) as [w1 [es1|e]]; cbn in Hb |- *; [|done].
    destruct Hb as (Hc1 & Hb).
    specialize (IH es1 w1). cbv zeta in IH.
    destruct (foldM (loop_body pow15 c ts) steps es1 w1) as [w2 [es2|e]];
      cbn in IH |- *; [|done].
    destruct IH as (Hc2 & out & Ho & Hd & He & Hnil).
    split; [lia|].
    destruct Hb as [(Ho1 & ->)|(t & E & d & Ho1 & ->)].
    + exists out. by rewrite Ho, Ho1.
    + exists (Progress t E d :: out). rewrite Ho, Ho1, <- app_assoc.
      split; [done|]. split; [done|]. split; [|done].
      change (samples (Progress t E d :: out)) with (E :: samples out).
      rewrite He, last_cons. cbn [energy]. by destruct (last (samples out)).
Qed.

Lemma py_range_length (a b : Z) : length (py_range a b) = Z.to_nat (b - a).
Proof. unfold py_range. by rewrite length_map, length_seq. Qed.

(** A run of [simulate] that returns. *)
Lemma simulate_effect (c : cluster) (time_end : float) (w w' : world) :
  simulate pow15 c time_end w = (w', Ok tt) ->
  exists n out,
    py_int (time_end / 0.001 + 1)%float = Ok n /\
    w_calls w' = w_calls w + Z.to_nat (n - 1) /\
    drifts out = [] /\
    w_out w' = w_out w ++ out ++
      [FinalDrift ((default (-0.25) (last (samples out)) - -0.25) / -0.25)%float; Elapsed].
Proof.
  unfold simulate. cbv zeta. unfold bind at 1. unfold on_heap at 1.
  destruct (accelerate pow15 c (w_heap w)) as [h1 [[]|e]]; [|done].
  unfold bind at 1. unfold lift at 1. unfold py_div at 1.
  change (0.001 =? 0)%float with false. cbv iota.
  unfold bind at 1. unfold lift at 1.
  destruct (py_int _) as [n|e]; [|done].
  unfold bind at 1.
  pose proof (loop_effect c 0.001%float (py_range 1 n) (Energies (-0.25) (-0.25))
    (World h1 (w_out w) (w_calls w))) as Hl. cbv zeta in Hl.
  destruct (foldM _ _ _ _) as [w1 [es|e]]; [|done].
  cbn [fst snd] in Hl. destruct Hl as (Hc & out & Ho & Hd & He & _).
  unfold bind at 1. unfold lift at 1. unfold py_div at 1.
  change (-0.25 =? 0)%float with false. cbv iota.
  unfold bind, print. cbn. intros [= <-].
  exists n, out. cbn in Hc, Ho, He |- *. rewrite py_range_length in Hc.
  split; [done|]. split; [done|]. split; [done|].
  rewrite Ho, He, <- !app_assoc. reflexivity.
Qed.

End DriverProofs.

(** ** Every unordered pair once *)

Lemma index_pairs_nodup (n : nat) : NoDup (index_pairs n).
Proof.
  unfold index_pairs.
  change (NoDup (seq 0 n ≫= fun i => map (pair i) (seq (S i) (n - S i)))).
  apply NoDup_bind.
  - intros i1 i2 [i j] _ _ H1 H2.
    apply list_elem_of_fmap in H1 as (? & ? & _), H2 as (? & ? & _). congruence.
  - intros i _. apply NoDup_fmap_2; [|apply NoDup_seq]. by intros ?? [= ->].
  - apply NoDup_seq.
Qed.

(** ** The loader builds clusters with separate storage *)

Lemma all_cells_snoc (c : cluster) (p : particle) :
  all_cells (c ++ [p]) = all_cells c ++ cells p.
Proof.
  unfold all_cells. rewrite map_app, concat_app. cbn [map concat].
  by rewrite app_nil_r.
Qed.

Lemma Particle_run (m px py pz vx vy vz : float) (h : heap) :
  Particle m px py pz vx vy vz h
  = (h ++ [V3 px py pz; V3 vx vy vz; V3 0 0 0; V3 0 0 0],
     Ok (Tuple m (length h) (length h + 1) (length h + 2) (length h + 3))).
Proof.
  unfold Particle, bind, alloc, ret. cbn.
  rewrite <- !app_assoc, !length_app. cbn.
  repeat f_equal; lia.
Qed.

Lemma load_line_packed (py_float : string -> option float) (c : cluster)
    (ln : string) (h : heap) :
  all_cells c = seq 0 (length h) ->
  match load_line py_float c ln h with
  | (h', Ok c') => all_cells c' = seq 0 (length h')
  | _ => True
  end.
Proof.
  intros Hc. unfold load_line, catch, bind, lift.
  destruct (floats_of py_float _) as [xs|e]; [|by destruct (decide _)].
  destruct xs as [|m [|px [|py [|pz [|vx [|vy [|vz [|? ?]]]]]]]]; try done.
  unfold call_Particle. rewrite Particle_run. unfold ret.
  rewrite all_cells_snoc, Hc, length_app. cbn [length cells p_r p_v p_a p_oa].
  rewrite seq_app. f_equal. cbn [seq Nat.add].
  by rewrite !Nat.add_succ_r, Nat.add_0_r.
Qed.

Lemma load_lines_packed (py_float : string -> option float) (lines : list string)
    (c : cluster) (h : heap) :
  all_cells c = seq 0 (length h) ->
  match foldM (load_line py_float) lines c h with
  | (h', Ok c') => all_cells c' = seq 0 (length h')
  | _ => True
  end.
Proof.
  revert c h. induction lines as [|ln lines IH]; intros c h Hc; [done|].
  cbn [foldM]. unfold bind.
  pose proof (load_line_packed py_float c ln h Hc) as H1.
  destruct (load_line py_float c ln h) as [h1 [c1|e]]; [|done].
  by apply IH.
Qed.

(** ** A zero distance anywhere stops the energy diagnostic *)

Lemma get_energy_zero_distance (self : cluster) (h : heap) (i j : nat) (bi bj : body) :
  i < j ->
  bodies self h !! i = Some bi -> bodies self h !! j = Some bj ->
  (distance bi bj =? 0)%float = true ->
  get_energy self h = (h, Raise ZeroDivisionError).
Proof.
  intros Hij Hi Hj Hd. rewrite get_energy_run.
  rewrite potential_from_singular; [done|].
  unfold body_pairs. apply Exists_exists.
  exists (bi, bj). split; [|done].
  apply list_elem_of_fmap. exists (i, j). cbn [fst snd].
  rewrite (list_lookup_total_correct _ _ _ Hi), (list_lookup_total_correct _ _ _ Hj).
  split; [done|]. apply index_pairs_elem. split; [done|].
  by apply lookup_lt_Some with bj.
Qed.

(** * The claims *)

Lemma separate_two_bodies (h : heap) : length h = 8 -> separate two_bodies h.
Proof.
  intros Hl. split.
  - apply (bool_decide_unpack _). by vm_compute.
  - unfold all_cells, two_bodies. cbn. rewrite Hl.
    repeat (constructor; [lia|]). constructor.
Qed.

(** C1. After [accelerate], every particle's previous acceleration is the
    acceleration it had at entry, and the accelerations are the contributions
    of all pairs [(i, j)], [i < j], accumulated in the kernel's order from the
    zero vector that the handoff leaves; the call raises exactly when that
    accumulation meets an undefined term. *)
Theorem accelerate_pairwise_sum (pow15 : float -> result float) (self : cluster) (h : heap) :
  separate self h ->
  let bs := bodies self h in
  let after := accelerate pow15 self h in
  let sum := foreach (index_pairs (length bs)) (interact pow15) (map handoff bs) in
  map previous_acceleration (bodies self after.1) = map acceleration bs /\
  bodies self after.1 = sum.1 /\
  after.2 = sum.2.
Proof.
  intros Hs. cbv zeta.
  destruct (accelerate_refines pow15 self h Hs) as (_ & Hb & Hr).
  split; [|split]; [|exact Hb|exact Hr].
  rewrite Hb. apply recompute_previous.
Qed.

Lemma accelerate_pairwise_sum_witness :
  separate two_bodies two_bodies_heap /\
  let bs := bodies two_bodies two_bodies_heap in
  let after := accelerate pow15_sample two_bodies two_bodies_heap in
  let sum := foreach (index_pairs (length bs)) (interact pow15_sample) (map handoff bs) in
  map previous_acceleration (bodies two_bodies after.1) = map acceleration bs /\
  bodies two_bodies after.1 = sum.1 /\
  after.2 = sum.2.
Proof.
  split; [by apply separate_two_bodies|].
  apply (accelerate_pairwise_sum pow15_sample two_bodies two_bodies_heap).
  by apply separate_two_bodies.
Defined.

(** C2. [step(dt)] is the position update of every particle from the
    acceleration stored at entry, then one force evaluation, then the velocity
    update of every particle from the new acceleration and the one the force
    evaluation moved into [previous_acceleration], which is the acceleration
    at entry.  When the force evaluation raises, the step stops there. *)
Theorem step_three_phases (pow15 : float -> result float) (self : cluster)
    (dt : float) (h : heap) :
  separate self h ->
  let bs := bodies self h in
  let forced := recompute_accelerations pow15 (map (position_update dt) bs) in
  let after := step pow15 self dt h in
  map previous_acceleration forced.1 = map acceleration bs /\
  match forced.2 with
  | Ok _ => bodies self after.1 = map (velocity_update dt) forced.1 /\ after.2 = Ok tt
  | Raise e => bodies self after.1 = forced.1 /\ after.2 = Raise e
  end.
Proof.
  intros Hs. cbv zeta. split.
  - rewrite recompute_previous, map_map. done.
  - destruct (step_refines pow15 self dt h Hs) as (_ & Hb & Hr).
    unfold verlet_step in Hb, Hr.
    destruct (recompute_accelerations pow15 _) as [bs' [[]|e]]; cbn [fst snd] in *; done.
Qed.

Lemma step_three_phases_witness :
  separate two_bodies two_bodies_heap /\
  let bs := bodies two_bodies two_bodies_heap in
  let forced := recompute_accelerations pow15_sample (map (position_update 0.001) bs) in
  let after := step pow15_sample two_bodies 0.001 two_bodies_heap in
  map previous_acceleration forced.1 = map acceleration bs /\
  match forced.2 with
  | Ok _ => bodies two_bodies after.1 = map (velocity_update 0.001) forced.1 /\ after.2 = Ok tt
  | Raise e => bodies two_bodies after.1 = forced.1 /\ after.2 = Raise e
  end.
Proof.
  split; [by apply separate_two_bodies|].
  apply (step_three_phases pow15_sample two_bodies 0.001%float two_bodies_heap).
  by apply separate_two_bodies.
Defined.

(** C9. A second [accelerate] right after a first one leaves the same
    accelerations and ends the same way, and the previous accelerations are
    then the result of the first call.  This needs no assumption on the
    positions. *)
Theorem accelerate_twice (pow15 : float -> result float) (self : cluster) (h : heap) :
  separate self h ->
  let once := accelerate pow15 self h in
  let twice := accelerate pow15 self once.1 in
  map acceleration (bodies self twice.1) = map acceleration (bodies self once.1) /\
  map previous_acceleration (bodies self twice.1) = map acceleration (bodies self once.1) /\
  twice.2 = once.2.
Proof.
  intros Hs. cbv zeta.
  destruct (accelerate_refines pow15 self h Hs) as (Hs1 & Hb1 & Hr1).
  destruct (accelerate_refines pow15 self _ Hs1) as (_ & Hb2 & Hr2).
  rewrite Hb2, Hr2, Hb1, Hr1. apply recompute_again.
Qed.

Lemma accelerate_twice_witness :
  separate two_bodies two_bodies_heap /\
  let once := accelerate pow15_sample two_bodies two_bodies_heap in
  let twice := accelerate pow15_sample two_bodies once.1 in
  map acceleration (bodies two_bodies twice.1) = map acceleration (bodies two_bodies once.1) /\
  map previous_acceleration (bodies two_bodies twice.1)
    = map acceleration (bodies two_bodies once.1) /\
  twice.2 = once.2.
Proof.
  split; [by apply separate_two_bodies|].
  apply (accelerate_twice pow15_sample two_bodies two_bodies_heap).
  by apply separate_two_bodies.
Defined.

(** C4, as stated, fails: whenever some pair of particles has a zero
    [distance_cube], the division raises and the kernel does not return, so no
    singular pair passes silently. *)
Lemma no_silent_singularity :
  ~ exists (pow15 : float -> result float) (self : cluster) (h : heap),
      separate self h /\ silent_singularity pow15 self h.
Proof.
  intros (pow15 & self & h & Hs & i & j & bi & bj & d
          & Hij & Hi & Hj & _ & Hp & Hd & Hok).
  destruct (accelerate_refines pow15 self h Hs) as (_ & _ & Hr).
  rewrite Hr in Hok. revert Hok. unfold recompute_accelerations.
  apply (foreach_interact_raises pow15 _ (i, j)).
  { apply index_pairs_elem. split; [done|]. by apply lookup_lt_Some with bj. }
  intros bs' Hfr. unfold interact. cbn [fst snd].
  assert (Hlook : forall k b, bodies self h !! k = Some b ->
    exists b', bs' !! k = Some b' /\ mass b' = mass b /\ position b' = position b).
  { intros k b Hk. apply (f_equal (fun l => l !! k)) in Hfr.
    rewrite !list_lookup_fmap, Hk in Hfr.
    destruct (bs' !! k) as [b'|]; [|done]. exists b'. split; [done|].
    cbn in Hfr. unfold frame in Hfr. cbn in Hfr. split; congruence. }
  destruct (Hlook i bi Hi) as (bi' & -> & Hmi & Hpi).
  destruct (Hlook j bj Hj) as (bj' & -> & Hmj & Hpj).
  rewrite Hpi, Hpj. unfold distance_squared in Hp. cbv zeta. rewrite Hp, Hd. done.
Qed.

(** C4, amended.  With CPython's [0.0 ** 1.5 = 0.0], two unit masses at the
    origin make the division by [distance_cube] raise [ZeroDivisionError] out
    of the kernel; the accelerations stay at the zero the handoff wrote. *)
Theorem accelerate_singular_raises (pow15 : float -> result float) :
  pow15 0%float = Ok 0%float ->
  exists (self : cluster) (h : heap) (bi bj : body),
    separate self h /\
    bodies self h = [bi; bj] /\ coincide bi bj = true /\
    accelerate pow15 self h = (h, Raise ZeroDivisionError) /\
    Forall (fun b => finite3 (acceleration b) = true) (bodies self h).
Proof.
  intros H0. exists two_bodies, coincident_heap.
  eexists _, _. split; [by apply separate_two_bodies|].
  split; [reflexivity|]. split; [by vm_compute|]. split.
  - vm_compute. rewrite H0. reflexivity.
  - vm_compute. repeat constructor.
Qed.

Lemma accelerate_singular_raises_witness :
  pow15_sample 0%float = Ok 0%float /\
  exists (self : cluster) (h : heap) (bi bj : body),
    separate self h /\
    bodies self h = [bi; bj] /\ coincide bi bj = true /\
    accelerate pow15_sample self h = (h, Raise ZeroDivisionError) /\
    Forall (fun b => finite3 (acceleration b) = true) (bodies self h).
Proof.
  split; [reflexivity|].
  apply (accelerate_singular_raises pow15_sample). reflexivity.
Defined.

(** C3, as stated, fails: two particles [1e-200] apart have distinct
    positions, yet the square of their separation underflows to zero and
    [get_energy] raises instead of returning. *)
Lemma get_energy_distinct_positions_raises :
  exists bi bj,
    bodies two_bodies close_heap = [bi; bj] /\ coincide bi bj = false /\
    get_energy two_bodies close_heap = (close_heap, Raise ZeroDivisionError).
Proof. eexists _, _. split; [reflexivity|]. split; by vm_compute. Qed.

(** C3, amended.  When no pair of particles has a zero computed distance,
    [get_energy] returns the kinetic energy plus the potential energy, summed
    in index order, and leaves the store as it was. *)
Theorem get_energy_total (self : cluster) (h : heap) :
  (forall i j bi bj, i < j ->
     bodies self h !! i = Some bi -> bodies self h !! j = Some bj ->
     (distance bi bj =? 0)%float = false) ->
  get_energy self h = (h, Ok (total_energy (bodies self h))).
Proof.
  intros Hd. rewrite get_energy_run. set (bs := bodies self h) in *.
  rewrite potential_from_defined.
  - unfold total_energy, potential_energy, body_pairs.
    do 3 f_equal. generalize (index_pairs (length bs)) 0%float.
    intros pairs. induction pairs as [|ij pairs IH]; intros pe; [done|].
    cbn [map fold_left fst snd]. apply IH.
  - unfold body_pairs. apply Forall_fmap, Forall_forall.
    intros [i j] Hij. apply index_pairs_elem in Hij. unfold compose. cbn [fst snd].
    apply (Hd i j); [lia|apply list_lookup_lookup_total_lt; lia..].
Qed.

Lemma get_energy_total_witness :
  (forall i j bi bj, i < j ->
     bodies two_bodies two_bodies_heap !! i = Some bi ->
     bodies two_bodies two_bodies_heap !! j = Some bj ->
     (distance bi bj =? 0)%float = false) /\
  get_energy two_bodies two_bodies_heap
  = (two_bodies_heap, Ok (total_energy (bodies two_bodies two_bodies_heap))).
Proof.
  assert (H : forall i j bi bj, i < j ->
     bodies two_bodies two_bodies_heap !! i = Some bi ->
     bodies two_bodies two_bodies_heap !! j = Some bj ->
     (distance bi bj =? 0)%float = false).
  { intros i j bi bj Hij Hi Hj.
    destruct i as [|[|i]], j as [|[|j]]; try lia; try discriminate.
    cbn in Hi, Hj. injection Hi as <-. injection Hj as <-. by vm_compute. }
  split; [exact H|].
  apply (get_energy_total two_bodies two_bodies_heap H).
Defined.

(** C10. Two particles at the same position make [get_energy] raise
    [ZeroDivisionError] in its potential-energy loop. *)
Theorem get_energy_singular_raises :
  exists (self : cluster) (h : heap) (bi bj : body),
    separate self h /\
    bodies self h = [bi; bj] /\ coincide bi bj = true /\
    get_energy self h = (h, Raise ZeroDivisionError).
Proof.
  exists two_bodies, coincident_heap. eexists _, _.
  split; [by apply separate_two_bodies|].
  split; [reflexivity|]. split; by vm_compute.
Qed.

(** C5, as stated, fails: a free particle of energy 1 run for 0.1 time units
    gives one sample, so the drift from the first sample to the last would be
    zero, but the program prints -5. *)
Lemma final_drift_not_from_first_sample :
  ~ exists pow15 : float -> result float,
      let out := w_out (simulate pow15 one_body 0.1 (World one_body_heap [] 0)).1 in
      final_drift out = drift_from_first_sample out.
Proof.
  intros [pow15 H].
  apply (f_equal (fun o => match o with Some x => (x <? 0)%float | None => false end)) in H.
  vm_compute in H. discriminate.
Qed.

(** C5, amended.  The final drift printed by a run that completes is
    [(E_last - E0) / E0] where [E0] is the constant -0.25 and [E_last] is the
    last energy sample of the run, or -0.25 when no sample was taken. *)
Theorem final_drift_from_constant (pow15 : float -> result float) (c : cluster)
    (time_end : float) (w w' : world) :
  simulate pow15 c time_end w = (w', Ok tt) ->
  w_out w = [] ->
  final_drift (w_out w')
  = Some ((default (-0.25) (last (samples (w_out w'))) - -0.25) / -0.25)%float.
Proof.
  intros Hrun Hout.
  destruct (simulate_effect pow15 c time_end w w' Hrun) as (n & out & _ & _ & Hd & Ho).
  rewrite Ho, Hout. cbn [app]. unfold final_drift, drifts, samples.
  rewrite !omap_app. fold (drifts out). fold (samples out).
  rewrite Hd. cbn. by rewrite app_nil_r.
Qed.

Lemma final_drift_from_constant_witness :
  let w := World one_body_heap [] 0 in
  let w' := (simulate pow15_sample one_body 0.1 w).1 in
  (simulate pow15_sample one_body 0.1 w = (w', Ok tt) /\ w_out w = []) /\
  final_drift (w_out w')
  = Some ((default (-0.25) (last (samples (w_out w'))) - -0.25) / -0.25)%float.
Proof.
  cbv zeta.
  assert (H : simulate pow15_sample one_body 0.1 (World one_body_heap [] 0)
    = ((simulate pow15_sample one_body 0.1 (World one_body_heap [] 0)).1, Ok tt))
    by (vm_compute; reflexivity).
  split; [split; [exact H|reflexivity]|].
  apply (final_drift_from_constant pow15_sample one_body 0.1%float _ _ H). reflexivity.
Defined.

(** C7, as stated, fails: with the end time 0.1 the driver calls [step] 100
    times, not 101. *)
Lemma step_count_not_as_specified :
  ~ exists pow15 : float -> result float,
      Ok (Z.of_nat (w_calls (simulate pow15 one_body 0.1 (World one_body_heap [] 0)).1))
      = step_count_as_specified 0.1.
Proof. intros [pow15 H]. vm_compute in H. discriminate. Qed.

(** C7, amended.  A run that completes calls [step] once for each integer from
    1 up to, not including, [int(end_time / 0.001 + 1)]: that is
    [int(end_time / 0.001 + 1) - 1] calls, and none when this is negative. *)
Theorem step_count (pow15 : float -> result float) (c : cluster)
    (time_end : float) (w w' : world) :
  simulate pow15 c time_end w = (w', Ok tt) ->
  exists n, py_int (time_end / 0.001 + 1)%float = Ok n /\
            w_calls w' = w_calls w + Z.to_nat (n - 1).
Proof.
  intros Hrun.
  destruct (simulate_effect pow15 c time_end w w' Hrun) as (n & out & Hn & Hc & _).
  by exists n.
Qed.

Lemma step_count_witness :
  let w := World one_body_heap [] 0 in
  let w' := (simulate pow15_sample one_body 0.1 w).1 in
  simulate pow15_sample one_body 0.1 w = (w', Ok tt) /\
  exists n, py_int (0.1 / 0.001 + 1)%float = Ok n /\
            w_calls w' = w_calls w + Z.to_nat (n - 1).
Proof.
  cbv zeta.
  assert (H : simulate pow15_sample one_body 0.1 (World one_body_heap [] 0)
    = ((simulate pow15_sample one_body 0.1 (World one_body_heap [] 0)).1, Ok tt))
    by (vm_compute; reflexivity).
  split; [exact H|].
  apply (step_count pow15_sample one_body 0.1%float _ _ H).
Defined.

(** C8, as stated, fails: an end-time argument that [float] rejects is not
    replaced by the default; the [ValueError] leaves the program. *)
Lemma invalid_end_time_is_fatal :
  ~ exists (pow15 : float -> result float) (py_float : string -> option float)
      (fs : string -> option (list string)),
      py_float "abc"%string = None /\
      (main pow15 py_float argv_bad_end_time fs start).2 = Ok tt.
Proof.
  intros (pow15 & py_float & fs & Hbad & Hrun).
  unfold main, bind, lift in Hrun. rewrite time_end_of_cases in Hrun.
  cbn in Hrun. rewrite Hbad in Hrun. discriminate.
Qed.

(** C8, amended.  When the command line has no end-time argument, the run
    goes on with the end time 10.0. *)
Theorem missing_end_time_defaults (pow15 : float -> result float)
    (py_float : string -> option float) (argv : list string)
    (fs : string -> option (list string)) (w : world) :
  argv !! 2 = None ->
  time_end_of py_float argv = Ok 10%float /\
  main pow15 py_float argv fs w =
  (let* path := lift (argv_at argv 1) in
   let* lines := lift (match fs path with Some ls => Ok ls | None => Raise OSError end) in
   let* c := on_heap (load_lines py_float lines) in
   simulate pow15 c 10) w.
Proof.
  intros Hno.
  assert (Ht : time_end_of py_float argv = Ok 10%float)
    by (by rewrite time_end_of_cases, Hno).
  split; [exact Ht|]. unfold main. unfold bind at 1. unfold lift at 1.
  by rewrite Ht.
Qed.

Lemma missing_end_time_defaults_witness :
  argv_no_end_time !! 2 = None /\
  time_end_of py_float_sample argv_no_end_time = Ok 10%float /\
  main pow15_sample py_float_sample argv_no_end_time (fun _ => Some sample_lines) start =
  (let* path := lift (argv_at argv_no_end_time 1) in
   let* lines := lift (match (fun _ => Some sample_lines) path with
                       | Some ls => Ok ls | None => Raise OSError end) in
   let* c := on_heap (load_lines py_float_sample lines) in
   simulate pow15_sample c 10) start.
Proof.
  split; [reflexivity|].
  apply (missing_end_time_defaults pow15_sample py_float_sample argv_no_end_time
           (fun _ => Some sample_lines) start).
  reflexivity.
Defined.

(** C6, as stated, fails: a trailing field that [float] rejects is not
    skipped; its [ValueError] is not a [TypeError] and leaves the loader. *)
Lemma nonnumeric_field_is_fatal :
  ~ exists py_float : string -> option float,
      py_float "x"%string = None /\
      (~ seven_numeric_fields py_float "p x 2 3" ->
       exists h c, load_line py_float [] "p x 2 3" [] = (h, Ok c)).
Proof.
  intros (py_float & Hbad & Hclaim).
  destruct Hclaim as (h & c & Hload).
  { intros [Hlen _]. vm_compute in Hlen. discriminate. }
  rewrite (load_line_invalid py_float) in Hload; [discriminate|].
  apply Exists_cons_hd. exact Hbad.
Qed.

(** C6, amended.  A line whose trailing fields are all numbers, but not seven
    of them, adds no particle and raises nothing: the loader goes on with the
    next line as if the line were absent. *)
Theorem wrong_field_count_skipped (py_float : string -> option float)
    (ln : string) (rest : list string) (c : cluster) (h : heap) :
  Forall (fun t => is_Some (py_float t)) (tail (py_split ln)) ->
  length (tail (py_split ln)) <> 7 ->
  load_line py_float c ln h = (h, Ok c) /\
  foldM (load_line py_float) (ln :: rest) c h = foldM (load_line py_float) rest c h.
Proof.
  intros Hnum Hlen.
  pose proof (load_line_skip py_float c ln h Hnum Hlen) as Hskip.
  split; [exact Hskip|]. cbn [foldM]. unfold bind. by rewrite Hskip.
Qed.

Lemma wrong_field_count_skipped_witness :
  (Forall (fun t => is_Some (py_float_sample t)) (tail (py_split "probe 1 2 3")) /\
   length (tail (py_split "probe 1 2 3")) <> 7) /\
  load_line py_float_sample [] "probe 1 2 3" [] = ([], Ok []) /\
  foldM (load_line py_float_sample) ["probe 1 2 3"%string] [] []
  = foldM (load_line py_float_sample) [] [] [].
Proof.
  assert (H1 : Forall (fun t => is_Some (py_float_sample t)) (tail (py_split "probe 1 2 3"))).
  { vm_compute. repeat constructor; eexists; reflexivity. }
  assert (H2 : length (tail (py_split "probe 1 2 3")) <> 7).
  { vm_compute. discriminate. }
  split; [split; [exact H1|exact H2]|].
  apply (wrong_field_count_skipped py_float_sample "probe 1 2 3" [] [] [] H1 H2).
Defined.

(** * Further properties *)

(** ** The force kernel *)

Lemma frame_components (bs bs' : list body) :
  map frame bs = map frame bs' ->
  map mass bs = map mass bs' /\
  map position bs = map position bs' /\
  map velocity bs = map velocity bs'.
Proof.
  intros Hf. repeat split.
  - apply (f_equal (map (fun t : float * vec3 * vec3 * vec3 => t.1.1.1))) in Hf.
    by rewrite !map_map in Hf.
  - apply (f_equal (map (fun t : float * vec3 * vec3 * vec3 => t.1.1.2))) in Hf.
    by rewrite !map_map in Hf.
  - apply (f_equal (map (fun t : float * vec3 * vec3 * vec3 => t.1.2))) in Hf.
    by rewrite !map_map in Hf.
Qed.

(** X1. [accelerate] writes accelerations only: masses, positions and
    velocities are what they were, also when the call raises. *)
Theorem accelerate_keeps_kinematics (pow15 : float -> result float)
    (self : cluster) (h : heap) :
  separate self h ->
  let after := bodies self (accelerate pow15 self h).1 in
  map mass after = map mass (bodies self h) /\
  map position after = map position (bodies self h) /\
  map velocity after = map velocity (bodies self h).
Proof.
  intros Hs. cbv zeta.
  destruct (accelerate_refines pow15 self h Hs) as (_ & Hb & _).
  rewrite Hb.
  destruct (frame_components _ _ (recompute_frame pow15 (bodies self h)))
    as (Hm & Hp & Hv).
  rewrite Hm, Hp, Hv, !map_map. done.
Qed.

Lemma accelerate_keeps_kinematics_witness :
  separate two_bodies two_bodies_heap /\
  let after := bodies two_bodies (accelerate pow15_sample two_bodies two_bodies_heap).1 in
  map mass after = map mass (bodies two_bodies two_bodies_heap) /\
  map position after = map position (bodies two_bodies two_bodies_heap) /\
  map velocity after = map velocity (bodies two_bodies two_bodies_heap).
Proof.
  split; [by apply separate_two_bodies|].
  apply (accelerate_keeps_kinematics pow15_sample two_bodies two_bodies_heap).
  by apply separate_two_bodies.
Defined.

Lemma interact_keeps_length (pow15 : float -> result float) (ij : nat * nat)
    (bs : list body) :
  length (interact pow15 ij bs).1 = length bs.
Proof.
  rewrite <- (length_map frame), interact_frame. apply length_map.
Qed.

Lemma interact_outcome (pow15 : float -> result float) (ij : nat * nat)
    (bs : list body) (e : exn) :
  ij.1 < length bs -> ij.2 < length bs ->
  (interact pow15 ij bs).2 = Raise e ->
  e = ZeroDivisionError \/ exists x, pow15 x = Raise e.
Proof.
  intros Hi Hj. unfold interact.
  destruct (lookup_lt_is_Some_2 bs _ Hi) as [bi ->].
  destruct (lookup_lt_is_Some_2 bs _ Hj) as [bj ->].
  cbv zeta. destruct (pow15 _) as [d|e'] eqn:Hp; cbn [snd].
  - destruct (d =? 0)%float; cbn [snd]; [|done]. intros [= <-]. by left.
  - intros [= <-]. right. by eexists.
Qed.

Lemma foreach_interact_outcome (pow15 : float -> result float)
    (pairs : list (nat * nat)) (bs : list body) (e : exn) :
  Forall (fun ij : nat * nat => ij.1 < length bs /\ ij.2 < length bs) pairs ->
  (foreach pairs (interact pow15) bs).2 = Raise e ->
  e = ZeroDivisionError \/ exists x, pow15 x = Raise e.
Proof.
  intros Hp. revert bs Hp. induction pairs as [|ij pairs IH]; intros bs Hp; [done|].
  apply Forall_cons in Hp as [[Hi Hj] Hp].
  cbn [foreach]. unfold bind.
  pose proof (interact_outcome pow15 ij bs) as Ho.
  pose proof (interact_keeps_length pow15 ij bs) as Hl.
  destruct (interact pow15 ij bs) as [bs1 [[]|e1]]; cbn [fst snd] in *.
  - apply IH. by rewrite Hl.
  - intros [= <-]. by apply Ho.
Qed.

(** X2. The only exceptions [accelerate] lets out are [ZeroDivisionError],
    from a division by a zero [distance_cube], and what [**] itself raises;
    in particular the index [self[i]] of the inner loop is always in range. *)
Theorem accelerate_exceptions (pow15 : float -> result float)
    (self : cluster) (h : heap) (e : exn) :
  separate self h ->
  (accelerate pow15 self h).2 = Raise e ->
  e = ZeroDivisionError \/ exists x, pow15 x = Raise e.
Proof.
  intros Hs. destruct (accelerate_refines pow15 self h Hs) as (_ & _ & ->).
  unfold recompute_accelerations. apply foreach_interact_outcome.
  apply Forall_forall. intros [i j] Hij. apply index_pairs_elem in Hij.
  rewrite length_map. cbn [fst snd]. lia.
Qed.

Lemma accelerate_exceptions_witness :
  (separate two_bodies coincident_heap /\
   (accelerate pow15_sample two_bodies coincident_heap).2 = Raise ZeroDivisionError) /\
  (ZeroDivisionError = ZeroDivisionError \/
   exists x, pow15_sample x = Raise ZeroDivisionError).
Proof.
  assert (Hs : separate two_bodies coincident_heap) by by apply separate_two_bodies.
  assert (Hr : (accelerate pow15_sample two_bodies coincident_heap).2
               = Raise ZeroDivisionError) by (by vm_compute).
  split; [by split|].
  apply (accelerate_exceptions pow15_sample two_bodies coincident_heap _ Hs Hr).
Defined.

(** X3. The accelerations [accelerate] computes, and whether it raises, depend
    on the masses and the positions only: two clusters that agree on them end
    with the same accelerations, whatever their velocities and their earlier
    accelerations were. *)
Theorem accelerate_from_masses_and_positions (pow15 : float -> result float)
    (self self' : cluster) (h h' : heap) :
  separate self h -> separate self' h' ->
  map mass (bodies self h) = map mass (bodies self' h') ->
  map position (bodies self h) = map position (bodies self' h') ->
  map acceleration (bodies self (accelerate pow15 self h).1)
  = map acceleration (bodies self' (accelerate pow15 self' h').1) /\
  (accelerate pow15 self h).2 = (accelerate pow15 self' h').2.
Proof.
  intros Hs Hs' Hm Hp.
  destruct (accelerate_refines pow15 self h Hs) as (_ & -> & ->).
  destruct (accelerate_refines pow15 self' h' Hs') as (_ & -> & ->).
  set (bs := bodies self h) in *. set (bs' := bodies self' h') in *.
  assert (Hl : length bs = length bs').
  { apply (f_equal length) in Hm. by rewrite !length_map in Hm. }
  assert (HF : Forall2 same_dynamics (map handoff bs) (map handoff bs')).
  { apply Forall2_fmap. apply Forall2_same_length_lookup. split; [done|].
    intros k b b' Hb Hb'. repeat split; cbn.
    - apply (f_equal (fun l => l !! k)) in Hm.
      rewrite !list_lookup_fmap, Hb, Hb' in Hm. by simplify_eq/=.
    - apply (f_equal (fun l => l !! k)) in Hp.
      rewrite !list_lookup_fmap, Hb, Hb' in Hp. by simplify_eq/=. }
  unfold recompute_accelerations. rewrite Hl.
  destruct (foreach_same_dynamics pow15 (index_pairs (length bs')) _ _ HF) as [H1 H2].
  split; [by apply same_dynamics_acceleration|done].
Qed.

Lemma accelerate_from_masses_and_positions_witness :
  (separate two_bodies two_bodies_heap /\ separate two_bodies two_bodies_moving_heap /\
   map mass (bodies two_bodies two_bodies_heap)
   = map mass (bodies two_bodies two_bodies_moving_heap) /\
   map position (bodies two_bodies two_bodies_heap)
   = map position (bodies two_bodies two_bodies_moving_heap)) /\
  map acceleration (bodies two_bodies (accelerate pow15_sample two_bodies two_bodies_heap).1)
  = map acceleration
      (bodies two_bodies (accelerate pow15_sample two_bodies two_bodies_moving_heap).1) /\
  (accelerate pow15_sample two_bodies two_bodies_heap).2
  = (accelerate pow15_sample two_bodies two_bodies_moving_heap).2.
Proof.
  assert (Hs : separate two_bodies two_bodies_heap) by by apply separate_two_bodies.
  assert (Hs' : separate two_bodies two_bodies_moving_heap) by by apply separate_two_bodies.
  split; [done|].
  apply (accelerate_from_masses_and_positions pow15_sample two_bodies two_bodies
           two_bodies_heap two_bodies_moving_heap Hs Hs' eq_refl eq_refl).
Defined.

(** X4. With no particle or a single one there is no pair: [accelerate]
    returns, whatever [**] does, and leaves every acceleration at zero, the
    previous acceleration holding the entry value. *)
Theorem accelerate_without_pairs (pow15 : float -> result float)
    (self : cluster) (h : heap) :
  separate self h -> length self <= 1 ->
  (accelerate pow15 self h).2 = Ok tt /\
  bodies self (accelerate pow15 self h).1 = map handoff (bodies self h).
Proof.
  intros Hs Hl.
  destruct (accelerate_refines pow15 self h Hs) as (_ & -> & ->).
  unfold recompute_accelerations. rewrite bodies_length.
  destruct self as [|p [|q self]]; cbn in Hl; [done|done|lia].
Qed.

Lemma accelerate_without_pairs_witness :
  (separate one_body one_body_heap /\ length one_body <= 1) /\
  (accelerate pow15_sample one_body one_body_heap).2 = Ok tt /\
  bodies one_body (accelerate pow15_sample one_body one_body_heap).1
  = map handoff (bodies one_body one_body_heap).
Proof.
  assert (Hs : separate one_body one_body_heap)
    by (apply (bool_decide_unpack _); by vm_compute).
  assert (Hl : length one_body <= 1) by (cbn; lia).
  split; [done|].
  apply (accelerate_without_pairs pow15_sample one_body one_body_heap Hs Hl).
Defined.

(** ** Coincident particles *)

Lemma is_finite_cases (x : float) :
  is_finite x = true ->
  (exists s, Prim2SF x = S754_zero s) \/ (exists s m e, Prim2SF x = S754_finite s m e).
Proof.
  unfold is_finite, is_nan, is_infinity.
  rewrite !FloatAxioms.eqb_spec, FloatAxioms.abs_spec.
  destruct (Prim2SF x) as [s|s| |s m e] eqn:E; intros H.
  - left. by eexists.
  - exfalso. by destruct s.
  - done.
  - right. by eexists _, _, _.
Qed.

Lemma SFsub_equal (x y : spec_float) :
  SFeqb x y = true ->
  (exists s, x = S754_zero s) \/ (exists s m e, x = S754_finite s m e) ->
  exists s, SFsub prec emax x y = S754_zero s.
Proof.
  intros He [[s ->]|(s & m & e & ->)].
  - destruct y as [sy|sy| |sy my ey]; try (by destruct sy); try done.
    destruct s, sy; by eexists.
  - destruct y as [sy|sy| |sy my ey]; try (by destruct s, sy); try (by destruct s).
    unfold SFeqb, SFcompare in He.
    assert (s = sy /\ e = ey /\ m = my) as (<- & <- & <-).
    { destruct s, sy; try done; destruct (e ?= ey)%Z eqn:Hc; try done;
        apply Z.compare_eq in Hc; (split; [done|]); (split; [done|]);
        apply Pos.compare_eq; unfold Pos.compare;
        by destruct (PosDef.Pos.compare_cont Eq m my). }
    exists false. unfold SFsub. cbv zeta. rewrite Z.min_id.
    replace (shl_align m e e) with (m, e) by (unfold shl_align; by rewrite Z.sub_diag).
    cbn [fst]. by rewrite Z.sub_diag.
Qed.

Lemma sub_equal_finite (x y : float) :
  (x =? y)%float = true -> is_finite x = true ->
  exists s, Prim2SF (x - y) = S754_zero s.
Proof.
  intros He Hf. rewrite sub_spec. apply SFsub_equal.
  - by rewrite <- FloatAxioms.eqb_spec.
  - by apply is_finite_cases.
Qed.

Lemma square_of_zero (d : float) (s : bool) :
  Prim2SF d = S754_zero s -> (d * d)%float = 0%float.
Proof.
  intros Hd. apply Prim2SF_inj. rewrite mul_spec, Hd. by destruct s.
Qed.

Lemma coincide_distance_squared (bi bj : body) :
  coincide bi bj = true -> finite3 (position bi) = true ->
  distance_squared bi bj = 0%float.
Proof.
  unfold coincide, finite3, distance_squared, dot, vsub. cbn [c0 c1 c2].
  intros [[H0 H1]%andb_prop H2]%andb_prop [[F0 F1]%andb_prop F2]%andb_prop.
  destruct (sub_equal_finite _ _ H0 F0) as [s0 E0].
  destruct (sub_equal_finite _ _ H1 F1) as [s1 E1].
  destruct (sub_equal_finite _ _ H2 F2) as [s2 E2].
  by rewrite (square_of_zero _ _ E0), (square_of_zero _ _ E1), (square_of_zero _ _ E2).
Qed.

Lemma coincide_distance (bi bj : body) :
  coincide bi bj = true -> finite3 (position bi) = true ->
  (distance bi bj =? 0)%float = true.
Proof.
  intros Hc Hf. pose proof (coincide_distance_squared bi bj Hc Hf) as H.
  unfold distance_squared in H. unfold distance. cbv zeta. by rewrite H.
Qed.

Lemma potential_from_outcome (pairs : list (body * body)) (pe : float) :
  potential_from pe pairs
  = if forallb (fun bb => negb (distance bb.1 bb.2 =? 0)%float) pairs
    then Ok (fold_left (fun pe bb => pe - (mass bb.1 * mass bb.2) / distance bb.1 bb.2)%float
               pairs pe)
    else Raise ZeroDivisionError.
Proof.
  revert pe. induction pairs as [|bb pairs IH]; intros pe; [done|].
  cbn [potential_from forallb fold_left]. unfold potential_step.
  rewrite py_sqrt_dot_self. unfold py_div. fold (distance bb.1 bb.2).
  destruct (distance bb.1 bb.2 =? 0)%float; cbn [negb andb]; [done|]. apply IH.
Qed.

Lemma fold_body_pairs (bs : list body) :
  fold_left (fun pe bb => pe - (mass bb.1 * mass bb.2) / distance bb.1 bb.2)%float
    (body_pairs bs) 0%float
  = potential_energy bs.
Proof.
  unfold potential_energy, body_pairs.
  generalize (index_pairs (length bs)) 0%float.
  intros pairs. induction pairs as [|ij pairs IH]; intros pe; [done|].
  cbn [map fold_left fst snd]. apply IH.
Qed.

(** X5. [get_energy] never writes to the cluster, and [ZeroDivisionError] is
    the only exception it raises (the argument of [sqrt] is a sum of squares,
    never negative): it returns the kinetic plus the potential energy unless
    some pair of particles has a zero computed distance. *)
Theorem get_energy_outcome (self : cluster) (h : heap) :
  get_energy self h
  = (h, if no_zero_distance (bodies self h)
        then Ok (total_energy (bodies self h))
        else Raise ZeroDivisionError).
Proof.
  rewrite get_energy_run, potential_from_outcome. unfold no_zero_distance.
  destruct (forallb _ _); [|done]. by rewrite fold_body_pairs.
Qed.

(** X6. Any two particles of the cluster at the same finite position make
    [get_energy] raise [ZeroDivisionError], however many others there are. *)
Theorem get_energy_coincident_raises (self : cluster) (h : heap)
    (i j : nat) (bi bj : body) :
  i < j ->
  bodies self h !! i = Some bi -> bodies self h !! j = Some bj ->
  coincide bi bj = true -> finite3 (position bi) = true ->
  get_energy self h = (h, Raise ZeroDivisionError).
Proof.
  intros Hij Hi Hj Hc Hf.
  apply (get_energy_zero_distance self h i j bi bj); try done.
  by apply coincide_distance.
Qed.

Lemma get_energy_coincident_raises_witness :
  (0 < 1 /\
   bodies two_bodies coincident_heap !! 0 = Some (Body 1 zero3 zero3 zero3 zero3) /\
   bodies two_bodies coincident_heap !! 1 = Some (Body 1 zero3 zero3 zero3 zero3) /\
   coincide (Body 1 zero3 zero3 zero3 zero3) (Body 1 zero3 zero3 zero3 zero3) = true /\
   finite3 (position (Body 1 zero3 zero3 zero3 zero3)) = true) /\
  get_energy two_bodies coincident_heap = (coincident_heap, Raise ZeroDivisionError).
Proof.
  split; [repeat split; first [lia | by vm_compute]|].
  apply (get_energy_coincident_raises two_bodies coincident_heap 0 1
           (Body 1 zero3 zero3 zero3 zero3) (Body 1 zero3 zero3 zero3 zero3));
    first [lia | by vm_compute].
Defined.

Lemma accelerate_zero_cube (pow15 : float -> result float) (self : cluster) (h : heap)
    (i j : nat) (bi bj : body) (d : float) :
  separate self h -> i < j ->
  bodies self h !! i = Some bi -> bodies self h !! j = Some bj ->
  pow15 (distance_squared bi bj) = Ok d -> (d =? 0)%float = true ->
  (accelerate pow15 self h).2 <> Ok tt.
Proof.
  intros Hs Hij Hi Hj Hp Hd.
  destruct (accelerate_refines pow15 self h Hs) as (_ & _ & ->).
  unfold recompute_accelerations.
  apply (foreach_interact_raises pow15 _ (i, j)).
  { apply index_pairs_elem. split; [done|]. by apply lookup_lt_Some with bj. }
  intros bs' Hfr. unfold interact. cbn [fst snd].
  assert (Hlook : forall k b, bodies self h !! k = Some b ->
    exists b', bs' !! k = Some b' /\ mass b' = mass b /\ position b' = position b).
  { intros k b Hk. apply (f_equal (fun l => l !! k)) in Hfr.
    rewrite !list_lookup_fmap, Hk in Hfr.
    destruct (bs' !! k) as [b'|]; [|done]. exists b'. split; [done|].
    cbn in Hfr. unfold frame in Hfr. cbn in Hfr. split; congruence. }
  destruct (Hlook i bi Hi) as (bi' & -> & Hmi & Hpi).
  destruct (Hlook j bj Hj) as (bj' & -> & Hmj & Hpj).
  rewrite Hpi, Hpj. unfold distance_squared in Hp. cbv zeta. rewrite Hp, Hd. done.
Qed.

(** X7. With CPython's [0.0 ** 1.5 = 0.0], any two particles of the cluster at
    the same finite position keep [accelerate] from returning: it raises. *)
Theorem accelerate_coincident_raises (pow15 : float -> result float)
    (self : cluster) (h : heap) (i j : nat) (bi bj : body) :
  pow15 0%float = Ok 0%float ->
  separate self h -> i < j ->
  bodies self h !! i = Some bi -> bodies self h !! j = Some bj ->
  coincide bi bj = true -> finite3 (position bi) = true ->
  exists e, (accelerate pow15 self h).2 = Raise e.
Proof.
  intros H0 Hs Hij Hi Hj Hc Hf.
  pose proof (accelerate_zero_cube pow15 self h i j bi bj 0%float Hs Hij Hi Hj) as Hn.
  rewrite (coincide_distance_squared bi bj Hc Hf) in Hn.
  specialize (Hn H0 eq_refl).
  destruct (accelerate pow15 self h).2 as [[]|e]; [done|by exists e].
Qed.

Lemma accelerate_coincident_raises_witness :
  (pow15_sample 0%float = Ok 0%float /\
   separate two_bodies coincident_heap /\ 0 < 1 /\
   bodies two_bodies coincident_heap !! 0 = Some (Body 1 zero3 zero3 zero3 zero3) /\
   bodies two_bodies coincident_heap !! 1 = Some (Body 1 zero3 zero3 zero3 zero3) /\
   coincide (Body 1 zero3 zero3 zero3 zero3) (Body 1 zero3 zero3 zero3 zero3) = true /\
   finite3 (position (Body 1 zero3 zero3 zero3 zero3)) = true) /\
  exists e, (accelerate pow15_sample two_bodies coincident_heap).2 = Raise e.
Proof.
  assert (Hs : separate two_bodies coincident_heap) by by apply separate_two_bodies.
  split; [split; [reflexivity|]; split; [exact Hs|]; split; [lia|]; by vm_compute|].
  apply (accelerate_coincident_raises pow15_sample two_bodies coincident_heap 0 1
           (Body 1 zero3 zero3 zero3 zero3) (Body 1 zero3 zero3 zero3 zero3));
    first [exact Hs | lia | by vm_compute].
Defined.

(** ** A step that fails *)



(** ** What the loader builds *)

Lemma bodies_app_heap (c : cluster) (h extra : heap) :
  Forall (fun l => l < length h) (all_cells c) ->
  bodies c (h ++ extra) = bodies c h.
Proof.
  intros Hb. unfold bodies. apply map_ext_in. intros p Hp%list_elem_of_In.
  apply list_elem_of_lookup in Hp as [i Hp].
  assert (Hl : forall l, l ∈ cells p -> lk (h ++ extra) l = lk h l).
  { intros l Hl. unfold lk. rewrite lookup_app_l; [done|].
    rewrite Forall_forall in Hb. apply Hb. by apply (cells_in_all c i p). }
  unfold view. rewrite !Hl; [done|unfold cells; rewrite !elem_of_cons; tauto..].
Qed.

Lemma packed_bound (c : cluster) (h : heap) :
  all_cells c = seq 0 (length h) -> Forall (fun l => l < length h) (all_cells c).
Proof.
  intros ->. apply Forall_forall. intros l Hl%elem_of_seq. lia.
Qed.

Lemma load_line_numeric (py_float : string -> option float) (c : cluster)
    (ln : string) (h : heap) :
  all_numeric py_float ln ->
  all_cells c = seq 0 (length h) ->
  exists h' c',
    load_line py_float c ln h = (h', Ok c') /\
    bodies c' h' = bodies c h ++ option_list (line_body py_float ln).
Proof.
  intros Hnum Hc. destruct (floats_of_numeric py_float _ Hnum) as (xs & Hxs & _).
  unfold load_line, line_body, catch, bind, lift. rewrite Hxs.
  destruct xs as [|m [|px [|py [|pz [|vx [|vy [|vz [|? ?]]]]]]]];
    try (exists h, c; split; [done|]; by rewrite app_nil_r).
  unfold call_Particle. rewrite Particle_run. unfold ret.
  eexists _, _. split; [done|].
  unfold bodies at 1. rewrite map_app. fold (bodies c (h ++ [V3 px py pz; V3 vx vy vz; V3 0 0 0; V3 0 0 0])).
  rewrite bodies_app_heap by by apply packed_bound.
  f_equal. cbn [map option_list]. unfold view, lk. cbn [p_mass p_r p_v p_a p_oa].
  rewrite !lookup_app_r by lia.
  replace (length h - length h) with 0 by lia.
  replace (length h + 1 - length h) with 1 by lia.
  replace (length h + 2 - length h) with 2 by lia.
  replace (length h + 3 - length h) with 3 by lia.
  done.
Qed.

Lemma load_lines_numeric (py_float : string -> option float) (lines : list string)
    (c : cluster) (h : heap) :
  Forall (all_numeric py_float) lines ->
  all_cells c = seq 0 (length h) ->
  exists h' c',
    foldM (load_line py_float) lines c h = (h', Ok c') /\
    bodies c' h' = bodies c h ++ omap (line_body py_float) lines.
Proof.
  intros Hnum. revert c h. induction Hnum as [|ln lines Hln _ IH]; intros c h Hc.
  - exists h, c. split; [done|]. by rewrite app_nil_r.
  - destruct (load_line_numeric py_float c ln h Hln Hc) as (h1 & c1 & H1 & Hb1).
    pose proof (load_line_packed py_float c ln h Hc) as Hp. rewrite H1 in Hp.
    destruct (IH c1 h1 Hp) as (h' & c' & H' & Hb').
    exists h', c'. cbn [foldM]. unfold bind. rewrite H1. split; [done|].
    rewrite Hb', Hb1, <- app_assoc. f_equal.
    change (omap (line_body py_float) (ln :: lines))
      with (match line_body py_float ln with
            | Some b => b :: omap (line_body py_float) lines
            | None => omap (line_body py_float) lines
            end).
    by destruct (line_body py_float ln).
Qed.

(** X9. When every trailing field of every line is a number, the loader
    returns, and the cluster holds, in file order, one particle for each line
    with exactly seven trailing fields: its mass, position and velocity are
    the seven numbers and both its accelerations are zero.  The other lines
    leave no trace. *)
Theorem load_lines_bodies (py_float : string -> option float) (lines : list string) :
  Forall (all_numeric py_float) lines ->
  exists h c,
    load_lines py_float lines [] = (h, Ok c) /\
    bodies c h = omap (line_body py_float) lines.
Proof.
  intros Hnum.
  destruct (load_lines_numeric py_float lines [] [] Hnum eq_refl) as (h & c & H & Hb).
  by exists h, c.
Qed.

Lemma py_split_nbsp_line :
  py_split nbsp_line = ["p"; "1"; "2"; "3"; "4"; "5"; "6"; "7"]%string.
Proof. reflexivity. Qed.

Lemma py_split_nel_line : py_split nel_line = ["q"; "1"; "2"; "3"]%string.
Proof. reflexivity. Qed.

Lemma load_lines_bodies_witness :
  Forall (all_numeric py_float_sample) (sample_lines ++ [nbsp_line; nel_line]) /\
  exists h c,
    load_lines py_float_sample (sample_lines ++ [nbsp_line; nel_line]) [] = (h, Ok c) /\
    bodies c h = omap (line_body py_float_sample) (sample_lines ++ [nbsp_line; nel_line]).
Proof.
  assert (H : Forall (all_numeric py_float_sample) (sample_lines ++ [nbsp_line; nel_line])).
  { unfold sample_lines. cbn [app].
    apply Forall_cons_2; [|apply Forall_cons_2; [|apply Forall_cons_2;
      [|apply Forall_cons_2; [|apply Forall_cons_2; [|apply Forall_cons_2;
        [|apply Forall_nil_2]]]]]].
    all: unfold all_numeric;
      match goal with
      | |- Forall _ ?l => let l' := eval vm_compute in l in change l with l'
      end.
    all: repeat first [apply Forall_nil_2 | apply Forall_cons_2; [eexists; reflexivity|]]. }
  split; [exact H|].
  apply (load_lines_bodies py_float_sample (sample_lines ++ [nbsp_line; nel_line]) H).
Defined.

Lemma load_line_outcome (py_float : string -> option float) (c : cluster)
    (ln : string) (h : heap) :
  (exists h' c', load_line py_float c ln h = (h', Ok c')) \/
  load_line py_float c ln h = (h, Raise ValueError).
Proof.
  unfold load_line, catch, bind, lift.
  destruct (floats_of py_float _) as [xs|e] eqn:Hxs.
  - left. destruct xs as [|m [|px [|py [|pz [|vx [|vy [|vz [|? ?]]]]]]]];
      try (by exists h, c).
    unfold call_Particle. rewrite Particle_run. by eexists _, _.
  - right. assert (e = ValueError) as ->; [|done].
    clear -Hxs. revert e Hxs. generalize (tail (py_split ln)).
    intros tokens. induction tokens as [|t tokens IH]; intros e; [done|].
    cbn [floats_of]. unfold float_of_str. destruct (py_float t); [|congruence].
    destruct (floats_of py_float tokens); [done|]. intros [= <-]. by apply IH.
Qed.

(** X10. One trailing field that [float] rejects, on any line of the file,
    makes the loader raise [ValueError]: no later line is read and no cluster
    is returned, whatever the other lines hold. *)
Theorem load_lines_rejects (py_float : string -> option float) (lines : list string) :
  Exists (fun ln => Exists (fun t => py_float t = None) (tail (py_split ln))) lines ->
  (load_lines py_float lines []).2 = Raise ValueError.
Proof.
  intros Hbad. unfold load_lines.
  generalize (@nil particle) (@nil vec3).
  induction lines as [|ln lines IH]; intros c h.
  - by apply Exists_nil in Hbad.
  - cbn [foldM]. unfold bind.
    destruct (load_line_outcome py_float c ln h) as [(h' & c' & H)|H]; rewrite H; [|done].
    apply Exists_cons in Hbad as [Hbad|Hbad]; [|by apply IH].
    rewrite (load_line_invalid py_float c ln h Hbad) in H. discriminate.
Qed.

Lemma load_lines_rejects_witness :
  Exists (fun ln => Exists (fun t => py_float_sample t = None) (tail (py_split ln)))
    ["sun 2 0 0 0 1 0 0"; "probe 1 x 3"]%string /\
  (load_lines py_float_sample ["sun 2 0 0 0 1 0 0"; "probe 1 x 3"]%string []).2
  = Raise ValueError.
Proof.
  assert (H : Exists (fun ln => Exists (fun t => py_float_sample t = None)
                                  (tail (py_split ln)))
                ["sun 2 0 0 0 1 0 0"; "probe 1 x 3"]%string).
  { apply Exists_cons_tl, Exists_cons_hd.
    change (tail (py_split "probe 1 x 3")) with ["1"; "x"; "3"]%string.
    apply Exists_cons_tl, Exists_cons_hd. reflexivity. }
  split; [exact H|].
  apply (load_lines_rejects py_float_sample _ H).
Defined.

(** X11. A cluster the loader returns has separate storage: no two of the
    position, velocity and acceleration lists of its particles are the same
    object, which is what the kernel theorems assume. *)
Theorem load_lines_separate (py_float : string -> option float)
    (lines : list string) (c : cluster) (h : heap) :
  load_lines py_float lines [] = (h, Ok c) -> separate c h.
Proof.
  intros Hl. pose proof (load_lines_packed py_float lines [] [] eq_refl) as Hp.
  unfold load_lines in Hl. rewrite Hl in Hp. unfold separate. split.
  - rewrite Hp. apply NoDup_seq.
  - by apply packed_bound.
Qed.

Lemma load_lines_separate_witness :
  let run := load_lines py_float_sample sample_lines [] in
  run = (run.1, Ok [Tuple 2 0 1 2 3]) /\ separate [Tuple 2 0 1 2 3] run.1.
Proof.
  cbv zeta.
  assert (H : load_lines py_float_sample sample_lines []
              = ((load_lines py_float_sample sample_lines []).1, Ok [Tuple 2 0 1 2 3]))
    by (by vm_compute).
  split; [exact H|].
  apply (load_lines_separate py_float_sample sample_lines _ _ H).
Defined.

(** Fields separated by U+0085 are fields: a line of three numbers is skipped,
    not rejected, and a line of seven gives a particle. *)
Lemma load_line_nel_line :
  load_line py_float_sample [] nel_line [] = ([], Ok []).
Proof. by vm_compute. Qed.

Lemma load_lines_nbsp_line :
  load_lines py_float_sample [nbsp_line] []
  = ([V3 2 3 4; V3 5 6 7; zero3; zero3], Ok [Tuple 1 0 1 2 3]).
Proof. by vm_compute. Qed.

(** ** Runs of the program *)

Lemma foldM_app {S X A} (body : A -> X -> M S A) (xs ys : list X) (acc : A) (s : S) :
  foldM body (xs ++ ys) acc s
  = match foldM body xs acc s with
    | (s', Ok acc') => foldM body ys acc' s'
    | (s', Raise e) => (s', Raise e)
    end.
Proof.
  revert acc s. induction xs as [|x xs IH]; intros acc s; [done|].
  cbn [app foldM]. unfold bind.
  destruct (body acc x s) as [s1 [acc1|e]]; [apply IH|done].
Qed.

Lemma py_range_split (a b c : Z) :
  (a <= b <= c)%Z -> py_range a c = py_range a b ++ py_range b c.
Proof.
  intros H. unfold py_range.
  replace (Z.to_nat (c - a)) with (Z.to_nat (b - a) + Z.to_nat (c - b)) by lia.
  rewrite seq_app, map_app. f_equal.
  rewrite Nat.add_0_l.
  replace (seq (Z.to_nat (b - a)) (Z.to_nat (c - b)))
    with ((fun x => Z.to_nat (b - a) + x) <$> seq 0 (Z.to_nat (c - b)))
    by (rewrite fmap_add_seq; f_equal; lia).
  rewrite <- list_fmap_compose. apply map_ext. intros k. unfold compose. lia.
Qed.

Lemma py_range_snoc (a b : Z) :
  (a <= b)%Z -> py_range a (b + 1) = py_range a b ++ [b].
Proof.
  intros H. rewrite (py_range_split a b (b + 1)) by lia. f_equal.
  unfold py_range. replace (Z.to_nat (b + 1 - b)) with 1 by lia. cbn. f_equal. lia.
Qed.

Lemma reporting_steps_filter (n : Z) :
  filter (fun k => (k mod 100 =? 0)%Z = true) (py_range 1 n) = reporting_steps n.
Proof.
  destruct (Z.le_gt_cases n 1) as [Hn|Hn].
  { unfold reporting_steps, py_range.
    replace (Z.to_nat (n - 1)) with 0 by lia.
    replace (Z.to_nat ((n - 1) / 100)) with 0; [done|].
    assert ((n - 1) / 100 <= 0)%Z; [|lia].
    apply Z.div_le_upper_bound; lia. }
  replace n with (1 + Z.of_nat (Z.to_nat (n - 1)))%Z by lia.
  generalize (Z.to_nat (n - 1)). clear. intros m.
  induction m as [|m IH].
  { done. }
  replace (1 + Z.of_nat (S m))%Z with (1 + Z.of_nat m + 1)%Z by lia.
  rewrite py_range_snoc by lia. rewrite filter_app, IH. clear IH.
  unfold reporting_steps.
  replace (1 + Z.of_nat m + 1 - 1)%Z with (Z.of_nat m + 1)%Z by lia.
  replace (1 + Z.of_nat m - 1)%Z with (Z.of_nat m) by lia.
  pose proof (Z.div_mod (Z.of_nat m) 100 ltac:(lia)) as Hdm.
  pose proof (Z.mod_pos_bound (Z.of_nat m) 100 ltac:(lia)) as Hb.
  pose proof (Z.div_pos (Z.of_nat m) 100 ltac:(lia) ltac:(lia)) as Hq.
  set (q := (Z.of_nat m / 100)%Z) in *. set (r := (Z.of_nat m mod 100)%Z) in *.
  destruct (decide (r = 99%Z)) as [Hr|Hr].
  - assert (H1 : (1 + Z.of_nat m = 100 * (q + 1))%Z) by lia.
    assert (H2 : ((Z.of_nat m + 1) / 100 = q + 1)%Z).
    { symmetry. apply (Z.div_unique _ _ _ 0); lia. }
    rewrite H2. replace (Z.to_nat (q + 1)) with (Z.to_nat q + 1) by lia.
    rewrite seq_app, map_app. f_equal.
    rewrite H1. cbn [seq map].
    rewrite filter_cons_True.
    2:{ rewrite Z.mul_comm, Z.mod_mul by lia. done. }
    rewrite filter_nil. f_equal. lia.
  - assert (H2 : ((Z.of_nat m + 1) / 100 = q)%Z).
    { symmetry. apply (Z.div_unique _ _ _ (r + 1)); lia. }
    rewrite H2.
    rewrite filter_cons_False, filter_nil, app_nil_r; [done|].
    assert (((1 + Z.of_nat m) mod 100 = r + 1)%Z) as ->.
    { symmetry. apply (Z.mod_unique _ _ q); lia. }
    intros H%Z.eqb_eq. lia.
Qed.

Lemma float_of_int_value (k : Z) (f : float) :
  float_of_int k = Ok f -> f = SF2Prim (binary_normalize prec emax k 0 false).
Proof. unfold float_of_int. cbv zeta. destruct (is_infinity _); congruence. Qed.

Lemma py_range_cons (a b : Z) :
  (a < b)%Z -> py_range a b = a :: py_range (a + 1) b.
Proof.
  intros H. rewrite (py_range_split a (a + 1) b) by lia.
  replace (py_range a (a + 1)) with [a]; [done|].
  unfold py_range. replace (Z.to_nat (a + 1 - a)) with 1 by lia. cbn. f_equal. lia.
Qed.

Lemma loop_body_report (pow15 : float -> result float) (c : cluster)
    (es es1 : energies) (k : Z) (w w1 : world) :
  loop_body pow15 c 0.001 es k w = (w1, Ok es1) ->
  w_heap w1 = (step pow15 c 0.001 (w_heap w)).1 /\
  if (k mod 100 =? 0)%Z
  then exists E, get_energy c (w_heap w1) = (w_heap w1, Ok E) /\
                 w_out w1 = w_out w ++ report_lines (old_energy es) [(k, E)] /\
                 es1 = Energies E E
  else w_out w1 = w_out w /\ es1 = es.
Proof.
  unfold loop_body, tick, on_heap, bind, print, lift, ret. run_step.
  destruct (step pow15 c 0.001 (w_heap w)) as [h1 [[]|e]]; run_step; [|done].
  destruct (k mod 100 =? 0)%Z; run_step.
  - pose proof (get_energy_run c h1) as Hrun.
    destruct (get_energy c h1) as [h2 [E|e]] eqn:Hg; run_step; [|done].
    assert (h2 = h1) as -> by congruence. clear Hrun.
    destruct (float_of_int k) as [f|e] eqn:Hf; run_step; [|done].
    apply float_of_int_value in Hf as ->.
    destruct (py_div _ _) as [d|e] eqn:Hd; run_step; [|done].
    unfold py_div in Hd. destruct (old_energy es =? 0)%float; [done|].
    injection Hd as <-. intros [= <- <-]. run_step. split; [done|]. by exists E.
  - by intros [= <- <-].
Qed.

Lemma loop_reports (pow15 : float -> result float) (c : cluster) (h0 : heap) (m : nat) :
  forall (a : Z) (es es' : energies) (w w' : world),
  (1 <= a)%Z ->
  w_heap w = heap_after pow15 c (Z.to_nat (a - 1)) h0 ->
  foldM (loop_body pow15 c 0.001) (py_range a (a + Z.of_nat m)) es w = (w', Ok es') ->
  exists Es,
    Forall2 (fun k E => get_energy c (heap_after pow15 c (Z.to_nat k) h0)
                        = (heap_after pow15 c (Z.to_nat k) h0, Ok E))
      (filter (fun k => (k mod 100 =? 0)%Z = true) (py_range a (a + Z.of_nat m))) Es /\
    w_out w' = w_out w
      ++ report_lines (old_energy es)
           (zip (filter (fun k => (k mod 100 =? 0)%Z = true)
                   (py_range a (a + Z.of_nat m))) Es) /\
    es' = match last Es with Some E => Energies E E | None => es end /\
    w_heap w' = heap_after pow15 c (Z.to_nat (a + Z.of_nat m - 1)) h0.
Proof.
  induction m as [|m IH]; intros a es es' w w' Ha Hh.
  - replace (a + Z.of_nat 0)%Z with a by lia.
    replace (py_range a a) with (@nil Z)
      by (unfold py_range; by replace (Z.to_nat (a - a)) with 0 by lia).
    intros [= <- <-]. exists []. split; [constructor|].
    split; [by rewrite app_nil_r|]. by split.
  - rewrite (py_range_cons a) by lia.
    replace (a + Z.of_nat (S m))%Z with (a + 1 + Z.of_nat m)%Z by lia.
    cbn [foldM]. unfold bind.
    destruct (loop_body pow15 c 0.001 es a w) as [w1 [es1|e]] eqn:Hb; [|done].
    intros Hrest. apply loop_body_report in Hb as [Hh1 Hb].
    assert (Hstep : w_heap w1 = heap_after pow15 c (Z.to_nat a) h0).
    { rewrite Hh1, Hh. replace (Z.to_nat a) with (S (Z.to_nat (a - 1))) by lia. done. }
    assert (Hh' : w_heap w1 = heap_after pow15 c (Z.to_nat (a + 1 - 1)) h0).
    { rewrite Hstep. f_equal. lia. }
    destruct (IH (a + 1)%Z es1 es' w1 w' ltac:(lia) Hh' Hrest)
      as (Es & HEs & Hout & Hes & Hend).
    destruct (a mod 100 =? 0)%Z eqn:Hk.
    + destruct Hb as (E & HE & Ho1 & ->). exists (E :: Es).
      rewrite filter_cons_True by done. cbn [zip zip_with].
      split; [constructor; [by rewrite <- Hstep|done]|]. split.
      * rewrite Hout, Ho1, <- app_assoc. done.
      * split; [|done]. rewrite last_cons. by destruct (last Es).
    + destruct Hb as (Ho1 & ->). exists Es.
      rewrite filter_cons_False by (by rewrite Hk). by rewrite <- Ho1.
Qed.

(** X12. A run that completes reports at the steps 100, 200, ... below
    [int(end_time / 0.001 + 1)] and at no other: the progress line of step [k]
    carries the time [0.001 * k], the energy [get_energy] returns on the
    cluster as [k] calls of [step] have left it, and its drift from the sample
    before (from -0.25 for the first); then come the final drift and the
    elapsed time.  Sampling leaves the cluster as it was. *)
Theorem simulate_reports (pow15 : float -> result float) (c : cluster)
    (time_end : float) (w w' : world) :
  simulate pow15 c time_end w = (w', Ok tt) ->
  let h1 := (accelerate pow15 c (w_heap w)).1 in
  exists n Es,
    py_int (time_end / 0.001 + 1)%float = Ok n /\
    length Es = Z.to_nat ((n - 1) / 100) /\
    Forall2 (fun k E => get_energy c (heap_after pow15 c (Z.to_nat k) h1)
                        = (heap_after pow15 c (Z.to_nat k) h1, Ok E))
      (reporting_steps n) Es /\
    w_heap w' = heap_after pow15 c (Z.to_nat (n - 1)) h1 /\
    w_out w' = w_out w
      ++ report_lines (-0.25) (zip (reporting_steps n) Es)
      ++ [FinalDrift ((default (-0.25) (last Es) - -0.25) / -0.25)%float; Elapsed].
Proof.
  unfold simulate. cbv zeta. unfold bind at 1. unfold on_heap at 1.
  destruct (accelerate pow15 c (w_heap w)) as [h1 [[]|e]]; [|done]. cbn [fst].
  unfold bind at 1. unfold lift at 1. unfold py_div at 1.
  change (0.001 =? 0)%float with false. cbv iota.
  unfold bind at 1. unfold lift at 1.
  destruct (py_int _) as [n|e]; [|done].
  unfold bind at 1.
  destruct (foldM _ _ _ _) as [w1 [es|e]] eqn:Hloop; [|done].
  assert (Hrange : py_range 1 n = py_range 1 (1 + Z.of_nat (Z.to_nat (n - 1)))).
  { unfold py_range. do 2 f_equal. lia. }
  rewrite Hrange in Hloop.
  apply (loop_reports pow15 c h1) in Hloop as (Es & HEs & Hout & -> & Hend);
    [|lia|done].
  rewrite <- Hrange, reporting_steps_filter in HEs, Hout.
  unfold bind at 1. unfold lift at 1. unfold py_div at 1.
  change (-0.25 =? 0)%float with false. cbv iota.
  unfold bind, print. cbn. intros [= <-].
  exists n, Es. split; [done|]. split.
  { rewrite <- (Forall2_length _ _ _ HEs). unfold reporting_steps.
    by rewrite length_map, length_seq. }
  split; [done|]. split.
  { cbn. rewrite Hend. f_equal. lia. }
  cbn in Hout |- *. rewrite Hout, <- !app_assoc. do 3 f_equal.
  by destruct (last Es).
Qed.

Lemma simulate_reports_witness :
  let w := World one_body_heap [] 0 in
  let w' := (simulate pow15_sample one_body 0.1 w).1 in
  simulate pow15_sample one_body 0.1 w = (w', Ok tt) /\
  let h1 := (accelerate pow15_sample one_body (w_heap w)).1 in
  exists n Es,
    py_int (0.1 / 0.001 + 1)%float = Ok n /\
    length Es = Z.to_nat ((n - 1) / 100) /\
    Forall2 (fun k E => get_energy one_body (heap_after pow15_sample one_body (Z.to_nat k) h1)
                        = (heap_after pow15_sample one_body (Z.to_nat k) h1, Ok E))
      (reporting_steps n) Es /\
    w_heap w' = heap_after pow15_sample one_body (Z.to_nat (n - 1)) h1 /\
    w_out w' = w_out w
      ++ report_lines (-0.25) (zip (reporting_steps n) Es)
      ++ [FinalDrift ((default (-0.25) (last Es) - -0.25) / -0.25)%float; Elapsed].
Proof.
  cbv zeta.
  assert (H : simulate pow15_sample one_body 0.1 (World one_body_heap [] 0)
    = ((simulate pow15_sample one_body 0.1 (World one_body_heap [] 0)).1, Ok tt))
    by (vm_compute; reflexivity).
  split; [exact H|].
  apply (simulate_reports pow15_sample one_body 0.1%float _ _ H).
Defined.

Lemma simulate_run (pow15 : float -> result float) (c : cluster)
    (time_end : float) (w : world) (h1 : heap) (n : Z) :
  accelerate pow15 c (w_heap w) = (h1, Ok tt) ->
  py_int (time_end / 0.001 + 1)%float = Ok n ->
  simulate pow15 c time_end w
  = match foldM (loop_body pow15 c 0.001) (py_range 1 n) (Energies (-0.25) (-0.25))
            (World h1 (w_out w) (w_calls w)) with
    | (w1, Ok es) =>
        (World (w_heap w1)
           (w_out w1 ++ [FinalDrift ((energy es - -0.25) / -0.25)%float; Elapsed])
           (w_calls w1), Ok tt)
    | (w1, Raise e) => (w1, Raise e)
    end.
Proof.
  intros Ha Hn. unfold simulate. cbv zeta. unfold bind at 1. unfold on_heap at 1.
  rewrite Ha. unfold bind at 1. unfold lift at 1. unfold py_div at 1.
  change (0.001 =? 0)%float with false. cbv iota.
  unfold bind at 1. unfold lift at 1. rewrite Hn.
  unfold bind at 1.
  destruct (foldM _ _ _ _) as [w1 [es|e]]; [|done].
  unfold bind at 1. unfold lift at 1. unfold py_div at 1.
  change (-0.25 =? 0)%float with false. cbv iota.
  unfold bind, print. cbn. by rewrite <- app_assoc.
Qed.

(** X13. An end time so small that [int(end_time / 0.001 + 1)] is at most 1,
    any negative end time among them, is no error: after the initial force
    evaluation the program takes no step, samples no energy, and prints a
    final drift of [-0.0] and the elapsed time. *)
Theorem simulate_no_step (pow15 : float -> result float) (c : cluster)
    (time_end : float) (w : world) (h1 : heap) (n : Z) :
  accelerate pow15 c (w_heap w) = (h1, Ok tt) ->
  py_int (time_end / 0.001 + 1)%float = Ok n ->
  (n <= 1)%Z ->
  simulate pow15 c time_end w
  = (World h1 (w_out w ++ [FinalDrift (-0)%float; Elapsed]) (w_calls w), Ok tt).
Proof.
  intros Ha Hn Hle. rewrite (simulate_run pow15 c time_end w h1 n Ha Hn).
  unfold py_range. replace (Z.to_nat (n - 1)) with 0 by lia. reflexivity.
Qed.

Lemma simulate_no_step_witness :
  (accelerate pow15_sample one_body one_body_heap = (one_body_heap, Ok tt) /\
   py_int (-5 / 0.001 + 1)%float = Ok (-4999)%Z /\ (-4999 <= 1)%Z) /\
  simulate pow15_sample one_body (-5) (World one_body_heap [] 0)
  = (World one_body_heap ([] ++ [FinalDrift (-0)%float; Elapsed]) 0, Ok tt).
Proof.
  assert (Ha : accelerate pow15_sample one_body one_body_heap = (one_body_heap, Ok tt))
    by (by vm_compute).
  assert (Hn : py_int (-5 / 0.001 + 1)%float = Ok (-4999)%Z) by (by vm_compute).
  assert (Hle : (-4999 <= 1)%Z) by lia.
  split; [done|].
  apply (simulate_no_step pow15_sample one_body (-5)%float (World one_body_heap [] 0)
           one_body_heap (-4999)%Z Ha Hn Hle).
Defined.

(** X14. With an empty cluster (an input file without a usable line) the
    energy sampled at step 100 is [0.0]; it becomes the reference of the next
    report, so a run of at least 200 steps prints one progress line and stops
    at step 200 with [ZeroDivisionError]. *)
Theorem simulate_empty_cluster (pow15 : float -> result float)
    (time_end : float) (w : world) (n : Z) :
  py_int (time_end / 0.001 + 1)%float = Ok n ->
  (201 <= n)%Z ->
  simulate pow15 [] time_end w
  = (World (w_heap w) (w_out w ++ [Progress 0.1 0 (-1)]) (200 + w_calls w),
     Raise ZeroDivisionError).
Proof.
  intros Hn Hle.
  rewrite (simulate_run pow15 [] time_end w (w_heap w) n eq_refl Hn).
  rewrite (py_range_split 1 201 n) by lia. rewrite foldM_app.
  assert (H : foldM (loop_body pow15 [] 0.001) (py_range 1 201)
                (Energies (-0.25) (-0.25)) (World (w_heap w) (w_out w) (w_calls w))
              = (World (w_heap w) (w_out w ++ [Progress 0.1 0 (-1)]) (200 + w_calls w),
                 Raise ZeroDivisionError)) by (vm_compute; reflexivity).
  by rewrite H.
Qed.

Lemma simulate_empty_cluster_witness :
  (py_int (10 / 0.001 + 1)%float = Ok 10001%Z /\ (201 <= 10001)%Z) /\
  simulate pow15_sample [] 10 start
  = (World (w_heap start) (w_out start ++ [Progress 0.1 0 (-1)]) (200 + w_calls start),
     Raise ZeroDivisionError).
Proof.
  assert (Hn : py_int (10 / 0.001 + 1)%float = Ok 10001%Z) by (by vm_compute).
  assert (Hle : (201 <= 10001)%Z) by lia.
  split; [done|].
  apply (simulate_empty_cluster pow15_sample 10%float start 10001%Z Hn Hle).
Defined.

(** X15. Without a file argument the program stops with the [IndexError] of
    [sys.argv[1]], which the [try] around the end time does not cover: nothing
    is loaded, computed or printed. *)
Theorem main_without_file (pow15 : float -> result float)
    (py_float : string -> option float) (argv : list string)
    (fs : string -> option (list string)) (w : world) :
  argv !! 1 = None ->
  main pow15 py_float argv fs w = (w, Raise IndexError).
Proof.
  intros H1. assert (H2 : argv !! 2 = None).
  { apply lookup_ge_None. apply lookup_ge_None in H1. lia. }
  unfold main, bind, lift. rewrite time_end_of_cases, H2.
  unfold argv_at. by rewrite H1.
Qed.

Lemma main_without_file_witness :
  argv_no_file !! 1 = None /\
  main pow15_sample py_float_sample argv_no_file (fun _ => Some sample_lines) start
  = (start, Raise IndexError).
Proof.
  split; [reflexivity|].
  apply (main_without_file pow15_sample py_float_sample argv_no_file
           (fun _ => Some sample_lines) start).
  reflexivity.
Defined.

Lemma not_finite_cases (x : float) :
  is_finite x = false ->
  (is_nan x = true /\ Prim2SF x = S754_nan) \/
  (is_nan x = false /\ exists s, Prim2SF x = S754_infinity s).
Proof.
  unfold is_finite, is_nan, is_infinity.
  rewrite !FloatAxioms.eqb_spec, FloatAxioms.abs_spec.
  destruct (Prim2SF x) as [s|s| |s m e] eqn:E; intros H.
  - by destruct s.
  - right. split; [by destruct s|]. by exists s.
  - left. done.
  - exfalso. revert H. unfold SFeqb, SFabs, SFcompare.
    rewrite Z.compare_refl.
    assert (Hm : PosDef.Pos.compare_cont Eq m m = Eq) by apply Pos.compare_refl.
    rewrite Hm. by destruct s.
Qed.

Lemma py_int_not_finite (x : float) :
  is_finite x = false ->
  py_int (x / 0.001 + 1)%float = Raise (if is_nan x then ValueError else OverflowError).
Proof.
  intros [[-> Hx]|[-> [s Hx]]]%not_finite_cases; unfold py_int;
    rewrite FloatAxioms.add_spec, FloatAxioms.div_spec, Hx; by destruct s || done.
Qed.

(** X16. An end time that is not a finite number stops the program after the
    initial force evaluation and before any step or output: [int] raises
    [ValueError] on NaN and [OverflowError] on an infinity. *)
Theorem simulate_end_time_not_finite (pow15 : float -> result float) (c : cluster)
    (time_end : float) (w : world) (h1 : heap) :
  accelerate pow15 c (w_heap w) = (h1, Ok tt) ->
  is_finite time_end = false ->
  simulate pow15 c time_end w
  = (World h1 (w_out w) (w_calls w),
     Raise (if is_nan time_end then ValueError else OverflowError)).
Proof.
  intros Ha Hf. unfold simulate. cbv zeta. unfold bind at 1. unfold on_heap at 1.
  rewrite Ha. unfold bind at 1. unfold lift at 1. unfold py_div at 1.
  change (0.001 =? 0)%float with false. cbv iota.
  unfold bind at 1. unfold lift at 1. by rewrite (py_int_not_finite _ Hf).
Qed.

Lemma simulate_end_time_not_finite_witness :
  (accelerate pow15_sample one_body one_body_heap = (one_body_heap, Ok tt) /\
   is_finite infinity = false) /\
  simulate pow15_sample one_body infinity (World one_body_heap [] 0)
  = (World one_body_heap [] 0,
     Raise (if is_nan infinity then ValueError else OverflowError)).
Proof.
  assert (Ha : accelerate pow15_sample one_body one_body_heap = (one_body_heap, Ok tt))
    by (by vm_compute).
  assert (Hf : is_finite infinity = false) by (by vm_compute).
  split; [done|].
  apply (simulate_end_time_not_finite pow15_sample one_body infinity
           (World one_body_heap [] 0) one_body_heap Ha Hf).
Defined.
